(** * Verification of [analyze_rsa.py]

    A shallow embedding of the decision core of the Yandex Direct placement
    analyser: [identify_platform_type], [calculate_averages],
    [apply_blocking_criteria] and [segment_platforms]; then of
    [create_analytical_report] and of the steps of [main] that follow the
    loading of the file.

    Numbers.  Every numeric cell of the data frame has been through
    [clean_numeric], which returns a float and maps a missing cell to 0, so
    a cell is a finite number: it is a rational [Q] here.  The baselines are
    results of [Series.mean()], which is NaN on an empty series, so they are
    [pyfloat]: a rational or NaN, where every comparison with NaN is false,
    as in Python.  Arithmetic on finite values is exact: the rounding of
    IEEE doubles is not part of this model.

    Strings are byte strings (UTF-8).  The classifier only matches ASCII
    literals, and [str.lower] maps no non-ASCII character to a character of
    those literals, so lower-casing acts on the ASCII letters.

    The texts built with f-strings ([deviation], [justification]) are
    formatted floats; they are left out of the verdict. *)

From Stdlib Require Import QArith Lqa ZArith Lia Bool List String Ascii.
From Stdlib Require Import Permutation Sorted.
Import ListNotations.

Open Scope string_scope.
Open Scope Q_scope.

(* ================================================================== *)
(** ** Python numbers *)

Inductive pyfloat : Type :=
| NaN
| Fin (q : Q).

Coercion Fin : Q >-> pyfloat.

Definition fmul (a b : pyfloat) : pyfloat :=
  match a, b with
  | Fin x, Fin y => Fin (x * y)
  | _, _ => NaN
  end.

(** [a <= b], [a < b], [a == b]: false as soon as one side is NaN. *)
Definition fle (a b : pyfloat) : bool :=
  match a, b with
  | Fin x, Fin y => Qle_bool x y
  | _, _ => false
  end.

Definition flt (a b : pyfloat) : bool :=
  match a, b with
  | Fin x, Fin y => negb (Qle_bool y x)
  | _, _ => false
  end.

Definition feq (a b : pyfloat) : bool :=
  match a, b with
  | Fin x, Fin y => Qeq_bool x y
  | _, _ => false
  end.

Definition fge (a b : pyfloat) : bool := fle b a.
Definition fgt (a b : pyfloat) : bool := flt b a.

Declare Scope py_scope.
Delimit Scope py_scope with py.
Bind Scope py_scope with pyfloat.
Infix "*" := fmul : py_scope.
Infix "<=?" := fle (at level 70) : py_scope.
Infix "<?" := flt (at level 70) : py_scope.
Infix ">=?" := fge (at level 70) : py_scope.
Infix ">?" := fgt (at level 70) : py_scope.
Infix "==?" := feq (at level 70) : py_scope.

(** [int(x)]: truncation toward zero. *)
Definition py_int (x : Q) : Z := Z.quot (Qnum x) (Zpos (Qden x)).

Definition total (l : list Q) : Q := fold_right Qplus 0 l.

(** [Series.mean()]: the sum over the count, NaN on the empty series. *)
Definition mean (l : list Q) : pyfloat :=
  match l with
  | [] => NaN
  | _ :: _ => Fin (total l / inject_Z (Z.of_nat (List.length l)))
  end.

(** What a call does: it returns a value or raises. *)
Inductive exception : Type :=
| ZeroDivisionError
| EmptyBatchError.
  (* [EmptyBatchError] is the specification's name; no statement of the
     source raises it. *)

Inductive outcome (A : Type) : Type :=
| Returns (a : A)
| Raises (e : exception).
Arguments Returns {A} a.
Arguments Raises {A} e.

(* ================================================================== *)
(** ** Python strings *)

(** [c.lower()] on one character. *)
Definition lower_ascii (c : ascii) : ascii :=
  let n := nat_of_ascii c in
  if ((65 <=? n) && (n <=? 90))%nat then ascii_of_nat (n + 32) else c.

(** [s.lower()] *)
Fixpoint lower (s : string) : string :=
  match s with
  | EmptyString => EmptyString
  | String c rest => String (lower_ascii c) (lower rest)
  end.

(** [s.startswith(p)] *)
Definition startswith (s p : string) : bool := String.prefix p s.

(** [p in s] *)
Fixpoint contains (p s : string) : bool :=
  String.prefix p s ||
  match s with
  | EmptyString => false
  | String _ rest => contains p rest
  end.

(** [s.endswith(p)] *)
Definition endswith (s p : string) : bool :=
  let n := String.length s in
  let m := String.length p in
  (m <=? n)%nat && String.eqb (String.substring (n - m) m s) p.

(** [s.count(c)] for a pattern of one character. *)
Fixpoint count (s : string) (c : ascii) : nat :=
  match s with
  | EmptyString => O
  | String d rest => ((if Ascii.eqb d c then 1 else 0) + count rest c)%nat
  end.

(** [sep.join(l)] *)
Definition join (sep : string) (l : list string) : string :=
  String.concat sep l.

Definition is_None {A : Type} (o : option A) : bool :=
  match o with
  | None => true
  | Some _ => false
  end.

(* ================================================================== *)
(** ** [identify_platform_type] *)

Definition mobile_prefixes : list string :=
  ["com."; "ru."; "by."; "fm."; "org."; "cz.";
   "net."; "biz."; "game."; "afisha."; "asian.";
   "air."; "and."; "io."; "con."; "tap."].

(** The [for prefix in mobile_prefixes] loop: [Some] is its [return],
    [None] is falling out of the loop. *)
Fixpoint mobile_loop (prefixes : list string) (platform_name : string)
  : option string :=
  match prefixes with
  | [] => None
  | prefix :: rest =>
      if startswith platform_name prefix then
        if (2 <=? count platform_name ".")%nat
           || negb (contains "yandex" platform_name
                    || contains "dzen" platform_name)
        then Some "Мобильное приложение"
        else mobile_loop rest platform_name
      else mobile_loop rest platform_name
  end.

Definition identify_platform_type (platform_name : string) : string :=
  let platform_name := lower platform_name in
  if contains "yandex" platform_name || (platform_name =? "dzen.ru")%string
  then "Яндекс-площадка"
  else if startswith platform_name "dsp-" then "DSP-площадка"
  else
    match mobile_loop mobile_prefixes platform_name with
    | Some t => t
    | None =>
        if endswith platform_name ".com" then "Сайт (.com)" else "Сайт"
    end.

(* ================================================================== *)
(** ** The data frame *)

(** One row of the data frame after [load_and_preprocess_data]; the
    columns, in the order of the fields: 'Площадка', 'Показов', 'Кликов',
    'CTR_%', 'Расход_руб', 'Ср_цена_клика_руб', 'Отказы_%', 'Глубина_стр',
    'Цена_цели_руб', 'Конверсии'.  (The column 'Тип_площадки' is never
    read.) *)
Record Row : Type := mkRow {
  platform : string;
  impressions : Q;
  clicks : Q;
  ctr : Q;
  spend : Q;
  cpc : Q;
  bounce : Q;
  depth : Q;
  cpa : Q;
  conversions : Q
}.

(** The dictionary [averages]. *)
Record Averages : Type := mkAverages {
  avg_ctr : pyfloat;
  avg_cpc : pyfloat;
  avg_bounce : pyfloat;
  avg_depth : pyfloat;
  avg_conversions : pyfloat;
  avg_spend : pyfloat;
  avg_cpa : pyfloat
}.

(* ================================================================== *)
(** ** [calculate_averages] *)

Definition calculate_averages (df : list Row) : outcome Averages :=
  let avg_ctr := mean (map ctr df) in
  let avg_cpc := mean (map cpc df) in
  let avg_bounce := mean (map bounce df) in
  let avg_depth := mean (map depth df) in
  let avg_conversions := mean (map conversions df) in
  let avg_spend := mean (map spend df) in
  let df_with_conversions := filter (fun r => (conversions r >? 0)%py) df in
  let avg_cpa :=
    if (0 <? List.length df_with_conversions)%nat
    then mean (map cpa df_with_conversions)
    else Fin 0 in
  Returns {| avg_ctr := avg_ctr;
             avg_cpc := avg_cpc;
             avg_bounce := avg_bounce;
             avg_depth := avg_depth;
             avg_conversions := avg_conversions;
             avg_spend := avg_spend;
             avg_cpa := avg_cpa |}.

(* ================================================================== *)
(** ** [apply_blocking_criteria] *)

(** The local variables the criteria assign. *)
Record Decision : Type := mkDecision {
  blocking_reason : option string;
  priority : option string;
  recommendation : string;
  criteria_number : option string;
  special_features : list string
}.

(** The four assignments every matching criterion makes. *)
Definition block (reason prio recomm number : string) (st : Decision)
  : Decision :=
  {| blocking_reason := Some reason;
     priority := Some prio;
     recommendation := recomm;
     criteria_number := Some number;
     special_features := special_features st |}.

(** [special_features.append(f)] *)
Definition add_feature (f : string) (st : Decision) : Decision :=
  {| blocking_reason := blocking_reason st;
     priority := priority st;
     recommendation := recommendation st;
     criteria_number := criteria_number st;
     special_features := special_features st ++ [f] |}.

(** One entry of [results] (without the two formatted texts). *)
Record Verdict : Type := mkVerdict {
  v_platform : string;             (* 'Площадка' *)
  v_type : string;                 (* 'Тип' *)
  v_reason : string;               (* 'Критерий_минусации' *)
  v_number : option string;        (* 'Номер_критерия' *)
  v_priority : option string;      (* 'Приоритет_блокировки' *)
  v_impressions : Z;               (* 'Показов' *)
  v_clicks : Z;                    (* 'Кликов' *)
  v_ctr : Q;                       (* 'CTR_%' *)
  v_conversions : Z;               (* 'Конверсий' *)
  v_cpa : Q;                       (* 'Стоимость_конверсии_руб' *)
  v_spend : Q;                     (* 'Расход_руб' *)
  v_bounce : Q;                    (* 'Показатель_отказов_%' *)
  v_depth : Q;                     (* 'Глубина_просмотра' *)
  v_recommendation : string;       (* 'Рекомендация' *)
  v_features : string              (* 'Особенности' *)
}.

Section LoopBody.

Variable row : Row.
Variable averages : Averages.

Definition platform_type : string := identify_platform_type (platform row).

Definition is_yandex : bool := (platform_type =? "Яндекс-площадка")%string.

Definition yandex_coef : Q := if is_yandex then 1.5 else 1.0.

(** The state before the first criterion. *)
Definition initial : Decision :=
  {| blocking_reason := None;
     priority := None;
     recommendation := "ОСТАВИТЬ";
     criteria_number := None;
     special_features :=
       if negb (platform_type =? "Сайт")%string then [platform_type] else [] |}.

(** The conditions of the [if] statements, one per criterion. *)
Definition test_2_2a : bool :=
  (ctr row >=? 50)%py && (impressions row >=? 10)%py.

Definition test_2_2b_band : bool :=
  (ctr row >=? 10 * yandex_coef)%py && (ctr row <? 50)%py
  && (impressions row >=? 10)%py.

Definition test_2_2b_expensive : bool :=
  (conversions row >? 0)%py
  && (cpa row >? avg_cpa averages * 2.5 * yandex_coef)%py.

Definition threshold_cpa : pyfloat :=
  (avg_cpa averages * 2.5 * yandex_coef)%py.

Definition test_2_1A : bool :=
  (cpa row >? threshold_cpa)%py && (avg_cpa averages >? 0)%py.

Definition min_spend : Q := 50 * yandex_coef.

Definition test_2_1B : bool :=
  (spend row >=? min_spend)%py && (clicks row >=? 10)%py.

Definition low_ctr_threshold : Q := 0.20 / yandex_coef.

Definition test_2_3 : bool :=
  (ctr row <? low_ctr_threshold)%py && (impressions row >=? 1000)%py.

Definition test_2_8 : bool :=
  (cpc row <? avg_cpc averages * 0.3)%py && (ctr row >? 15)%py.

Definition bounce_threshold : pyfloat :=
  (avg_bounce averages * 1.2 * yandex_coef)%py.

Definition test_2_4 : bool :=
  ((bounce row >? bounce_threshold)%py || (depth row <=? 1.0)%py)
  && (conversions row ==? 0)%py && (clicks row >=? 20)%py.

Definition test_2_5 : bool :=
  ((ctr row >? 15)%py && (conversions row ==? 0)%py)
  || ((cpc row <? 0.5)%py && (ctr row >? 20)%py)
  || ((spend row >? 30)%py && (conversions row ==? 0)%py).

Definition test_2_5B : bool :=
  ((ctr row >? 15)%py && (conversions row ==? 0)%py)
  || ((cpc row <? 0.5)%py && (ctr row >? 20)%py)
  || ((spend row >? 30)%py && (conversions row ==? 0)%py).

Definition test_2_6 : bool :=
  (conversions row ==? 0)%py && (spend row >? 30)%py.

(** КРИТЕРИЙ 2.2а / 2.2б: the [if ... elif ...] statement. *)
Definition criterion_2_2 (st : Decision) : Decision :=
  if test_2_2a then
    add_feature "Экстремальный CTR"
      (block "Экстремально высокий CTR (мошеннический трафик)"
             "КРИТИЧНЫЙ" "БЛОКИРОВАТЬ НЕМЕДЛЕННО" "2.2а" st)
  else if test_2_2b_band then
    if (conversions row ==? 0)%py then
      add_feature "Высокий CTR"
        (block "Подозрительно высокий CTR без конверсий"
               "ВЫСОКИЙ" "БЛОКИРОВАТЬ" "2.2б" st)
    else if test_2_2b_expensive then
      block "Высокий CTR + дорогие конверсии"
            "ВЫСОКИЙ" "БЛОКИРОВАТЬ" "2.2б + 2.1" st
    else st
  else st.

(** КРИТЕРИЙ 2.1A *)
Definition criterion_2_1A (st : Decision) : Decision :=
  if is_None (blocking_reason st) && (conversions row >? 0)%py then
    if test_2_1A then
      block "Высокая стоимость конверсии" "КРИТИЧНЫЙ" "БЛОКИРОВАТЬ" "2.1A" st
    else st
  else st.

(** КРИТЕРИЙ 2.1Б *)
Definition criterion_2_1B (st : Decision) : Decision :=
  if is_None (blocking_reason st) && (conversions row ==? 0)%py then
    if test_2_1B then
      block "Нулевые конверсии при значительном расходе"
            "КРИТИЧНЫЙ" "БЛОКИРОВАТЬ" "2.1Б" st
    else st
  else st.

(** КРИТЕРИЙ 2.3 *)
Definition criterion_2_3 (st : Decision) : Decision :=
  if is_None (blocking_reason st) then
    if test_2_3 then
      block "Критически низкий CTR" "ВЫСОКИЙ" "БЛОКИРОВАТЬ" "2.3" st
    else st
  else st.

(** КРИТЕРИЙ 2.8 *)
Definition criterion_2_8 (st : Decision) : Decision :=
  if is_None (blocking_reason st) then
    if test_2_8 then
      block "Подозрительно низкая цена клика + высокий CTR"
            "ВЫСОКИЙ" "БЛОКИРОВАТЬ" "2.8" st
    else st
  else st.

(** КРИТЕРИЙ 2.4 *)
Definition criterion_2_4 (st : Decision) : Decision :=
  if is_None (blocking_reason st) then
    if test_2_4 then
      block "Низкая вовлеченность пользователей"
            "СРЕДНИЙ" "БЛОКИРОВАТЬ" "2.4" st
    else st
  else st.

(** КРИТЕРИЙ 2.5 *)
Definition criterion_2_5 (st : Decision) : Decision :=
  if (platform_type =? "Мобильное приложение")%string
     && is_None (blocking_reason st) then
    if test_2_5 then
      block "Мобильное приложение: подозрительные показатели"
            "ДОПОЛНИТЕЛЬНЫЙ" "БЛОКИРОВАТЬ" "2.5" st
    else st
  else st.

(** КРИТЕРИЙ 2.5Б *)
Definition criterion_2_5B (st : Decision) : Decision :=
  if (platform_type =? "DSP-площадка")%string
     && is_None (blocking_reason st) then
    if test_2_5B then
      block "DSP-площадка: подозрительные показатели"
            "ДОПОЛНИТЕЛЬНЫЙ" "БЛОКИРОВАТЬ" "2.5Б" st
    else st
  else st.

(** КРИТЕРИЙ 2.6 *)
Definition criterion_2_6 (st : Decision) : Decision :=
  if (platform_type =? "Сайт (.com)")%string
     && is_None (blocking_reason st) then
    if test_2_6 then
      block "Домен .com без конверсий при расходе"
            "ДОПОЛНИТЕЛЬНЫЙ" "БЛОКИРОВАТЬ" "2.6" st
    else st
  else st.

(** The criteria in the order of the statements of the loop body. *)
Definition decide : Decision :=
  criterion_2_6
    (criterion_2_5B
       (criterion_2_5
          (criterion_2_4
             (criterion_2_8
                (criterion_2_3
                   (criterion_2_1B
                      (criterion_2_1A
                         (criterion_2_2 initial)))))))).

(** [if blocking_reason is not None: results.append({...})] *)
Definition loop_body (results : list Verdict) : list Verdict :=
  let st := decide in
  match blocking_reason st with
  | Some reason =>
      results ++
      [ {| v_platform := platform row;
           v_type := platform_type;
           v_reason := reason;
           v_number := criteria_number st;
           v_priority := priority st;
           v_impressions := py_int (impressions row);
           v_clicks := py_int (clicks row);
           v_ctr := ctr row;
           v_conversions := py_int (conversions row);
           v_cpa := if (cpa row >? 0)%py then cpa row else 0;
           v_spend := spend row;
           v_bounce := bounce row;
           v_depth := depth row;
           v_recommendation := recommendation st;
           v_features := join ", " (special_features st) |} ]
  | None => results
  end.

End LoopBody.

(** [for idx, row in df.iterrows(): ...] and the returned frame. *)
Definition apply_blocking_criteria (df : list Row) (averages : Averages)
  : list Verdict :=
  fold_left (fun results row => loop_body row averages results) df [].

(* ================================================================== *)
(** ** [segment_platforms] *)

(** The dictionary the function returns. *)
Record Segments : Type := mkSegments {
  effective : list string;
  medium : list string;
  ineffective : list string
}.

Section SegmentBody.

Variable row : Row.
Variable averages : Averages.

(** Категория A *)
Definition test_effective : bool :=
  (conversions row >? 0)%py
  && (cpa row <=? avg_cpa averages)%py
  && ((0.5 <=? ctr row)%py && (ctr row <=? 2)%py)
  && (bounce row <=? avg_bounce averages)%py.

(** Категория C *)
Definition test_ineffective : bool :=
  (ctr row >=? 50)%py
  || ((ctr row >=? 10)%py && (conversions row ==? 0)%py)
  || ((conversions row >? 0)%py && (cpa row >? avg_cpa averages * 2.5)%py)
  || ((conversions row ==? 0)%py && (spend row >=? 50)%py
      && (clicks row >=? 10)%py)
  || ((ctr row <? 0.20)%py && (impressions row >=? 1000)%py).

Definition segment_body (acc : Segments) : Segments :=
  if test_effective then
    {| effective := effective acc ++ [platform row];
       medium := medium acc;
       ineffective := ineffective acc |}
  else if test_ineffective then
    {| effective := effective acc;
       medium := medium acc;
       ineffective := ineffective acc ++ [platform row] |}
  else
    {| effective := effective acc;
       medium := medium acc ++ [platform row];
       ineffective := ineffective acc |}.

End SegmentBody.

(** The loop, then the three [print]s of [len(...)/total*100], which divide
    by [len(df)]. *)
Definition segment_platforms (df : list Row) (averages : Averages)
  : outcome Segments :=
  let segments :=
    fold_left (fun acc row => segment_body row averages acc) df
              {| effective := []; medium := []; ineffective := [] |} in
  let total := List.length df in
  if (total =? 0)%nat then Raises ZeroDivisionError else Returns segments.

(* ================================================================== *)
(** ** The specification's reading

    The definitions of this module follow the words of the design
    document, not the statements of the source; the theorems below relate
    the two. *)

Module Spec.

Inductive PlatformType : Type :=
| YandexNetworkPlacement
| DspPlacement
| MobileApp
| ComDomainSite
| GenericSite.

Definition all_platform_types : list PlatformType :=
  [YandexNetworkPlacement; DspPlacement; MobileApp; ComDomainSite;
   GenericSite].

(** The string the source uses for each category. *)
Definition label (t : PlatformType) : string :=
  match t with
  | YandexNetworkPlacement => "Яндекс-площадка"
  | DspPlacement => "DSP-площадка"
  | MobileApp => "Мобильное приложение"
  | ComDomainSite => "Сайт (.com)"
  | GenericSite => "Сайт"
  end.

(** §4.1: the precedence, first match wins, on the lower-cased
    identifier. *)
Definition classify (identifier : string) : PlatformType :=
  let s := lower identifier in
  if contains "yandex" s || (s =? "dzen.ru")%string then
    YandexNetworkPlacement
  else if startswith s "dsp-" then DspPlacement
  else if existsb (startswith s) mobile_prefixes
          && ((2 <=? count s ".")%nat
              || negb (contains "yandex" s || contains "dzen" s))
  then MobileApp
  else if endswith s ".com" then ComDomainSite
  else GenericSite.

(** §4.3: the leniency coefficient. *)
Definition leniency (t : PlatformType) : Q :=
  match t with
  | YandexNetworkPlacement => 1.5
  | _ => 1.0
  end.

Definition coef (r : Row) : Q := leniency (classify (platform r)).

Inductive Priority : Type :=
| Critical
| High
| MediumPriority
| Supplementary.

Definition priority_label (p : Priority) : string :=
  match p with
  | Critical => "КРИТИЧНЫЙ"
  | High => "ВЫСОКИЙ"
  | MediumPriority => "СРЕДНИЙ"
  | Supplementary => "ДОПОЛНИТЕЛЬНЫЙ"
  end.

(** One line of the table of §4.3. *)
Record Rule : Type := mkRule {
  rule_id : string;
  rule_priority : Priority;
  rule_holds : Row -> Averages -> bool
}.

Definition in_high_ctr_band (r : Row) : bool :=
  (10 * coef r <=? ctr r)%py && (ctr r <? 50)%py && (impressions r >=? 10)%py.

Definition suspicious_signals (r : Row) : bool :=
  ((ctr r >? 15)%py && (conversions r ==? 0)%py)
  || ((cpc r <? 0.5)%py && (ctr r >? 20)%py)
  || ((spend r >? 30)%py && (conversions r ==? 0)%py).

Definition is_type (t : PlatformType) (r : Row) : bool :=
  match classify (platform r), t with
  | YandexNetworkPlacement, YandexNetworkPlacement
  | DspPlacement, DspPlacement
  | MobileApp, MobileApp
  | ComDomainSite, ComDomainSite
  | GenericSite, GenericSite => true
  | _, _ => false
  end.

Definition rule_2_2a : Rule :=
  mkRule "2.2а" Critical
    (fun r _ => (ctr r >=? 50)%py && (impressions r >=? 10)%py).

Definition rule_2_2b : Rule :=
  mkRule "2.2б" High
    (fun r _ => in_high_ctr_band r && (conversions r ==? 0)%py).

Definition rule_2_2b_2_1 : Rule :=
  mkRule "2.2б + 2.1" High
    (fun r a => in_high_ctr_band r && (conversions r >? 0)%py
                && (cpa r >? avg_cpa a * 2.5 * coef r)%py).

Definition rule_2_1A : Rule :=
  mkRule "2.1A" Critical
    (fun r a => (conversions r >? 0)%py && (avg_cpa a >? 0)%py
                && (cpa r >? avg_cpa a * 2.5 * coef r)%py).

Definition rule_2_1B : Rule :=
  mkRule "2.1Б" Critical
    (fun r _ => (conversions r ==? 0)%py && (spend r >=? 50 * coef r)%py
                && (clicks r >=? 10)%py).

Definition rule_2_3 : Rule :=
  mkRule "2.3" High
    (fun r _ => (ctr r <? Fin (0.20 / coef r))%py
                && (impressions r >=? 1000)%py).

Definition rule_2_8 : Rule :=
  mkRule "2.8" High
    (fun r a => (cpc r <? avg_cpc a * 0.3)%py && (ctr r >? 15)%py).

Definition rule_2_4 : Rule :=
  mkRule "2.4" MediumPriority
    (fun r a => ((bounce r >? avg_bounce a * 1.2 * coef r)%py
                 || (depth r <=? 1.0)%py)
                && (conversions r ==? 0)%py && (clicks r >=? 20)%py).

Definition rule_2_5 : Rule :=
  mkRule "2.5" Supplementary
    (fun r _ => is_type MobileApp r && suspicious_signals r).

Definition rule_2_5B : Rule :=
  mkRule "2.5Б" Supplementary
    (fun r _ => is_type DspPlacement r && suspicious_signals r).

Definition rule_2_6 : Rule :=
  mkRule "2.6" Supplementary
    (fun r _ => is_type ComDomainSite r && (conversions r ==? 0)%py
                && (spend r >? 30)%py).

(** The table, in its order. *)
Definition rules : list Rule :=
  [rule_2_2a; rule_2_2b; rule_2_2b_2_1; rule_2_1A; rule_2_1B; rule_2_3;
   rule_2_8; rule_2_4; rule_2_5; rule_2_5B; rule_2_6].

(** The first rule of the table whose condition holds. *)
Definition first_match (r : Row) (a : Averages) : option Rule :=
  find (fun ru => rule_holds ru r a) rules.

(** §3: the mean cost per action over the records with conversions, read
    off the batch in one pass. *)
Fixpoint converting_total (df : list Row) : Q :=
  match df with
  | [] => 0
  | r :: rest =>
      if (conversions r >? 0)%py then cpa r + converting_total rest
      else converting_total rest
  end.

Fixpoint converting_count (df : list Row) : nat :=
  match df with
  | [] => O
  | r :: rest =>
      if (conversions r >? 0)%py then S (converting_count rest)
      else converting_count rest
  end.

Definition mean_cpa (df : list Row) : pyfloat :=
  if (converting_count df =? 0)%nat then Fin 0
  else Fin (converting_total df / inject_Z (Z.of_nat (converting_count df))).

Inductive SegmentTag : Type :=
| Effective
| Medium
| Ineffective.

End Spec.

(** The tag [segment_platforms] gives a row: the list its name goes to. *)
Definition segment_tag (row : Row) (averages : Averages) : Spec.SegmentTag :=
  if test_effective row averages then Spec.Effective
  else if test_ineffective row averages then Spec.Ineffective
  else Spec.Medium.

(** The verdicts one row adds to [results]. *)
Definition row_verdicts (row : Row) (averages : Averages) : list Verdict :=
  loop_body row averages [].

(* ================================================================== *)
(** ** Notions the properties are stated with *)

(** What the reader of [results] sees of a decision. *)
Definition outcome_of (st : Decision) : option (string * string) :=
  match blocking_reason st, criteria_number st, priority st with
  | Some _, Some n, Some p => Some (n, p)
  | _, _, _ => None
  end.

Definition rule_outcome (ru : Spec.Rule) : string * string :=
  (Spec.rule_id ru, Spec.priority_label (Spec.rule_priority ru)).

(** Two rows with the same numbers, whatever their identifiers. *)
Definition same_metrics (r1 r2 : Row) : Prop :=
  impressions r1 = impressions r2 /\ clicks r1 = clicks r2
  /\ ctr r1 = ctr r2 /\ spend r1 = spend r2 /\ cpc r1 = cpc r2
  /\ bounce r1 = bounce r2 /\ depth r1 = depth r2 /\ cpa r1 = cpa r2
  /\ conversions r1 = conversions r2.

(** The conditions the coefficient scales, as the loop body tests them on
    an open decision: the number of the criterion and the conjunction of
    the tests that lead to its assignments. *)
Definition scaled_conditions : list (string * (Row -> Averages -> bool)) :=
  [ ("2.1A", fun r a => (conversions r >? 0)%py && test_2_1A r a);
    ("2.1Б", fun r _ => (conversions r ==? 0)%py && test_2_1B r);
    ("2.2б", fun r _ => test_2_2b_band r && (conversions r ==? 0)%py);
    ("2.2б + 2.1",
     fun r a => test_2_2b_band r && negb (conversions r ==? 0)%py
                && test_2_2b_expensive r a);
    ("2.3", fun r _ => test_2_3 r);
    ("2.4", fun r a => test_2_4 r a) ].

(** A row for the examples: CTR 20 on 100 impressions, one conversion at
    5; and baselines with avg_cpa = 0. *)
Definition costly_row : Row := mkRow "example.ru" 100 20 20 50 2.5 10 2 5 1.

Definition no_cpa_baseline : Averages := mkAverages 5 2 40 2 0 30 0.

(** No number of the row is negative. *)
Definition nonnegative (r : Row) : bool :=
  forallb (Qle_bool 0)
          [impressions r; clicks r; ctr r; spend r; cpc r; bounce r;
           depth r; cpa r; conversions r].




(** The number of names in the three segments. *)
Definition segment_sizes (s : Segments) : nat :=
  (List.length (effective s) + List.length (medium s)
   + List.length (ineffective s))%nat.

(* ================================================================== *)
(** * Properties *)

(** ** Comparisons of finite numbers *)

Lemma fle_fin (x y : Q) : fle (Fin x) (Fin y) = true <-> x <= y.
Proof. apply Qle_bool_iff. Qed.

Lemma fle_fin_false (x y : Q) : fle (Fin x) (Fin y) = false <-> y < x.
Proof.
  simpl. split; intro H.
  - apply Qnot_le_lt. intro L. apply Qle_bool_iff in L. congruence.
  - destruct (Qle_bool x y) eqn:E; [|reflexivity].
    apply Qle_bool_iff in E. lra.
Qed.

Lemma flt_fin (x y : Q) : flt (Fin x) (Fin y) = true <-> x < y.
Proof. simpl. rewrite negb_true_iff. apply (fle_fin_false y x). Qed.

Lemma flt_fin_false (x y : Q) : flt (Fin x) (Fin y) = false <-> y <= x.
Proof. simpl. rewrite negb_false_iff. apply Qle_bool_iff. Qed.

Lemma feq_fin (x y : Q) : feq (Fin x) (Fin y) = true <-> x == y.
Proof. apply Qeq_bool_iff. Qed.

Lemma feq_fin_false (x y : Q) : feq (Fin x) (Fin y) = false <-> ~ x == y.
Proof.
  simpl. split; intro H.
  - intro E. apply Qeq_bool_iff in E. congruence.
  - destruct (Qeq_bool x y) eqn:E; [|reflexivity].
    apply Qeq_bool_iff in E. contradiction.
Qed.

(** Turns the boolean tests of the context into order facts on [Q]. *)
Ltac py_reflect :=
  unfold fge, fgt in *;
  repeat match goal with
  | H : _ && _ = true |- _ => apply andb_true_iff in H; destruct H
  | H : fle (Fin _) (Fin _) = true |- _ => apply fle_fin in H
  | H : fle (Fin _) (Fin _) = false |- _ => apply fle_fin_false in H
  | H : flt (Fin _) (Fin _) = true |- _ => apply flt_fin in H
  | H : flt (Fin _) (Fin _) = false |- _ => apply flt_fin_false in H
  | H : feq (Fin _) (Fin _) = true |- _ => apply feq_fin in H
  | H : feq (Fin _) (Fin _) = false |- _ => apply feq_fin_false in H
  end.

(** Decides a boolean test on finite numbers from the order facts of the
    context. *)
Ltac py_decide :=
  unfold fge, fgt;
  match goal with
  | |- fle (Fin _) (Fin _) = true => apply fle_fin; lra
  | |- fle (Fin _) (Fin _) = false => apply fle_fin_false; lra
  | |- flt (Fin _) (Fin _) = true => apply flt_fin; lra
  | |- flt (Fin _) (Fin _) = false => apply flt_fin_false; lra
  | |- feq (Fin _) (Fin _) = true => apply feq_fin; lra
  | |- feq (Fin _) (Fin _) = false => apply feq_fin_false; lra
  end.

(* ================================================================== *)
(** ** The classifier *)

Lemma lower_ascii_idem (c : ascii) : lower_ascii (lower_ascii c) = lower_ascii c.
Proof. destruct c as [[] [] [] [] [] [] [] []]; reflexivity. Qed.

Lemma lower_idem (s : string) : lower (lower s) = lower s.
Proof.
  induction s as [|c s IH]; simpl; [reflexivity|].
  now rewrite lower_ascii_idem, IH.
Qed.

(** The loop over the prefixes returns on the first prefix that matches
    when the guard holds; the guard does not depend on the prefix. *)
Lemma mobile_loop_existsb (prefixes : list string) (s : string) :
  mobile_loop prefixes s =
  if existsb (startswith s) prefixes
     && ((2 <=? count s ".")%nat
         || negb (contains "yandex" s || contains "dzen" s))
  then Some "Мобильное приложение" else None.
Proof.
  induction prefixes as [|p ps IH]; cbn [mobile_loop existsb];
    [reflexivity|].
  destruct (startswith s p); cbn [orb andb].
  - destruct ((2 <=? count s ".")%nat
              || negb (contains "yandex" s || contains "dzen" s)) eqn:G.
    + reflexivity.
    + rewrite IH. now rewrite andb_false_r.
  - exact IH.
Qed.

Lemma identify_platform_type_label (name : string) :
  identify_platform_type name = Spec.label (Spec.classify name).
Proof.
  unfold identify_platform_type, Spec.classify.
  rewrite mobile_loop_existsb.
  destruct (contains "yandex" (lower name) || (lower name =? "dzen.ru")%string);
    [reflexivity|].
  destruct (startswith (lower name) "dsp-"); [reflexivity|].
  destruct (existsb (startswith (lower name)) mobile_prefixes
            && ((2 <=? count (lower name) ".")%nat
                || negb (contains "yandex" (lower name)
                         || contains "dzen" (lower name))));
    [reflexivity|].
  destruct (endswith (lower name) ".com"); reflexivity.
Qed.

Lemma label_injective (t u : Spec.PlatformType) :
  Spec.label t = Spec.label u -> t = u.
Proof.
  destruct t, u; intro H; try reflexivity; vm_compute in H; discriminate H.
Qed.

(** C3.  [identify_platform_type] is a function of the identifier whose
    value is the label of exactly one of the five categories (the five
    labels are pairwise different); the category is the one the precedence
    of §4.1 gives on the lower-cased identifier (contains "yandex" or is
    "dzen.ru": Yandex; starts with "dsp-": DSP; starts with a mobile prefix
    and has two dots or names neither yandex nor dzen: mobile application;
    ends with ".com": .com site; otherwise site), and identifiers that
    differ only in case get the same category. *)
Theorem identify_platform_type_precedence :
  (forall name : string,
      identify_platform_type name =
      Spec.label
        (let s := lower name in
         if contains "yandex" s || (s =? "dzen.ru")%string
         then Spec.YandexNetworkPlacement
         else if startswith s "dsp-" then Spec.DspPlacement
         else if existsb (startswith s) mobile_prefixes
                 && ((2 <=? count s ".")%nat
                     || negb (contains "yandex" s || contains "dzen" s))
         then Spec.MobileApp
         else if endswith s ".com" then Spec.ComDomainSite
         else Spec.GenericSite))
  /\ (forall name : string,
         exists! t : Spec.PlatformType,
           identify_platform_type name = Spec.label t)
  /\ NoDup (map Spec.label Spec.all_platform_types)
  /\ (forall name : string,
         identify_platform_type name = identify_platform_type (lower name))
  /\ (forall n1 n2 : string,
         lower n1 = lower n2 ->
         identify_platform_type n1 = identify_platform_type n2).
Proof.
  assert (Hcase : forall n1 n2, lower n1 = lower n2 ->
                    identify_platform_type n1 = identify_platform_type n2).
  { intros n1 n2 E. unfold identify_platform_type. now rewrite E. }
  repeat split.
  - intro name. apply identify_platform_type_label.
  - intro name. exists (Spec.classify name). split.
    + apply identify_platform_type_label.
    + intros u Hu. apply label_injective.
      now rewrite <- Hu, identify_platform_type_label.
  - simpl. repeat constructor; simpl; intuition discriminate.
  - intro name. apply Hcase. symmetry. apply lower_idem.
  - exact Hcase.
Qed.

(** The classifier at work: one identifier per branch, upper case
    included. *)
Lemma identify_platform_type_examples :
  identify_platform_type "Yandex.ru" = "Яндекс-площадка"
  /\ identify_platform_type "DZEN.RU" = "Яндекс-площадка"
  /\ identify_platform_type "dsp-Inner-Active" = "DSP-площадка"
  /\ identify_platform_type "com.example.app" = "Мобильное приложение"
  /\ identify_platform_type "ru.dzen" = "Сайт"
  /\ identify_platform_type "com.dzen.app" = "Мобильное приложение"
  /\ identify_platform_type "example.com" = "Сайт (.com)"
  /\ identify_platform_type "avito.ru" = "Сайт".
Proof. repeat split; reflexivity. Qed.

(* ================================================================== *)
(** ** The rule chain *)

Lemma platform_type_label (r : Row) :
  platform_type r = Spec.label (Spec.classify (platform r)).
Proof. apply identify_platform_type_label. Qed.

Lemma platform_type_eqb (r : Row) (t : Spec.PlatformType) :
  (platform_type r =? Spec.label t)%string = Spec.is_type t r.
Proof.
  rewrite platform_type_label. unfold Spec.is_type.
  destruct (Spec.classify (platform r)), t; reflexivity.
Qed.

Lemma yandex_coef_leniency (r : Row) : yandex_coef r = Spec.coef r.
Proof.
  unfold yandex_coef, is_yandex, Spec.coef.
  pose proof (platform_type_eqb r Spec.YandexNetworkPlacement) as E.
  cbn [Spec.label] in E. rewrite E.
  unfold Spec.is_type.
  destruct (Spec.classify (platform r)); reflexivity.
Qed.


(** Splits on every comparison of the goal. *)
Ltac split_tests :=
  unfold fge, fgt;
  repeat (match goal with
          | |- context [fle ?x ?y] => destruct (fle x y)
          | |- context [flt ?x ?y] => destruct (flt x y)
          | |- context [feq ?x ?y] => destruct (feq x y)
          end; cbn [andb orb negb]).

Section Chain.

Variable r : Row.
Variable a : Averages.

(** A statement that leaves a decision already taken alone. *)
Definition keeps (f : Decision -> Decision) : Prop :=
  forall st, is_None (blocking_reason st) = false -> f st = st.

(** A statement that, on an open decision, takes the decision of the first
    rule of [l] that holds, and does nothing when none holds. *)
Definition fires_first (f : Decision -> Decision) (l : list Spec.Rule)
  : Prop :=
  forall st,
    is_None (blocking_reason st) = true ->
    match find (fun ru => Spec.rule_holds ru r a) l with
    | Some ru =>
        is_None (blocking_reason (f st)) = false
        /\ outcome_of (f st) = Some (rule_outcome ru)
    | None => f st = st
    end.

Lemma find_app_rules (l1 l2 : list Spec.Rule) :
  find (fun ru => Spec.rule_holds ru r a) (l1 ++ l2) =
  match find (fun ru => Spec.rule_holds ru r a) l1 with
  | Some ru => Some ru
  | None => find (fun ru => Spec.rule_holds ru r a) l2
  end.
Proof.
  induction l1 as [|ru l1 IH]; simpl; [reflexivity|].
  destruct (Spec.rule_holds ru r a); [reflexivity|exact IH].
Qed.

Lemma fires_first_then (f g : Decision -> Decision) (l1 l2 : list Spec.Rule) :
  fires_first f l1 -> fires_first g l2 -> keeps g ->
  fires_first (fun st => g (f st)) (l1 ++ l2).
Proof.
  intros Hf Hg Kg st Hst. rewrite find_app_rules.
  specialize (Hf st Hst).
  destruct (find (fun ru => Spec.rule_holds ru r a) l1) as [ru|].
  - destruct Hf as [B O]. now rewrite (Kg _ B).
  - rewrite Hf. exact (Hg st Hst).
Qed.

Lemma fires_first_2_2 :
  fires_first (criterion_2_2 r a)
    [Spec.rule_2_2a; Spec.rule_2_2b; Spec.rule_2_2b_2_1].
Proof.
  intros st Hst.
  unfold criterion_2_2, test_2_2a, test_2_2b_band, test_2_2b_expensive.
  rewrite !yandex_coef_leniency.
  cbn [find Spec.rule_holds Spec.rule_2_2a Spec.rule_2_2b Spec.rule_2_2b_2_1].
  unfold Spec.in_high_ctr_band.
  split_tests; try reflexivity; split; reflexivity.
Qed.

Ltac single_rule :=
  intros st Hst; cbv beta delta [criterion_2_1A criterion_2_1B criterion_2_3
    criterion_2_8 criterion_2_4 criterion_2_5 criterion_2_5B criterion_2_6
    test_2_1A threshold_cpa test_2_1B min_spend test_2_3 low_ctr_threshold
    test_2_8 test_2_4 bounce_threshold test_2_5 test_2_5B test_2_6];
  rewrite ?yandex_coef_leniency, Hst;
  cbn [find Spec.rule_holds Spec.rule_2_1A Spec.rule_2_1B Spec.rule_2_3
       Spec.rule_2_8 Spec.rule_2_4 Spec.rule_2_5 Spec.rule_2_5B Spec.rule_2_6];
  unfold Spec.suspicious_signals; cbn [fmul].

Ltac kept :=
  intros st Hst; cbv beta delta [criterion_2_1A criterion_2_1B criterion_2_3
    criterion_2_8 criterion_2_4 criterion_2_5 criterion_2_5B criterion_2_6];
  rewrite Hst, ?andb_false_r; reflexivity.

Lemma fires_first_2_1A : fires_first (criterion_2_1A r a) [Spec.rule_2_1A].
Proof. single_rule. split_tests; try reflexivity; split; reflexivity. Qed.

Lemma keeps_2_1A : keeps (criterion_2_1A r a).
Proof. kept. Qed.

Lemma fires_first_2_1B : fires_first (criterion_2_1B r) [Spec.rule_2_1B].
Proof. single_rule. split_tests; try reflexivity; split; reflexivity. Qed.

Lemma keeps_2_1B : keeps (criterion_2_1B r).
Proof. kept. Qed.

Lemma fires_first_2_3 : fires_first (criterion_2_3 r) [Spec.rule_2_3].
Proof. single_rule. split_tests; try reflexivity; split; reflexivity. Qed.

Lemma keeps_2_3 : keeps (criterion_2_3 r).
Proof. kept. Qed.

Lemma fires_first_2_8 : fires_first (criterion_2_8 r a) [Spec.rule_2_8].
Proof. single_rule. split_tests; try reflexivity; split; reflexivity. Qed.

Lemma keeps_2_8 : keeps (criterion_2_8 r a).
Proof. kept. Qed.

Lemma fires_first_2_4 : fires_first (criterion_2_4 r a) [Spec.rule_2_4].
Proof. single_rule. split_tests; try reflexivity; split; reflexivity. Qed.

Lemma keeps_2_4 : keeps (criterion_2_4 r a).
Proof. kept. Qed.

Lemma fires_first_2_5 : fires_first (criterion_2_5 r) [Spec.rule_2_5].
Proof.
  pose proof (platform_type_eqb r Spec.MobileApp) as E.
  cbn [Spec.label] in E. single_rule. rewrite E.
  destruct (Spec.is_type Spec.MobileApp r); cbn [andb]; [|reflexivity].
  split_tests; try reflexivity; split; reflexivity.
Qed.

Lemma keeps_2_5 : keeps (criterion_2_5 r).
Proof. kept. Qed.

Lemma fires_first_2_5B : fires_first (criterion_2_5B r) [Spec.rule_2_5B].
Proof.
  pose proof (platform_type_eqb r Spec.DspPlacement) as E.
  cbn [Spec.label] in E. single_rule. rewrite E.
  destruct (Spec.is_type Spec.DspPlacement r); cbn [andb]; [|reflexivity].
  split_tests; try reflexivity; split; reflexivity.
Qed.

Lemma keeps_2_5B : keeps (criterion_2_5B r).
Proof. kept. Qed.

Lemma fires_first_2_6 : fires_first (criterion_2_6 r) [Spec.rule_2_6].
Proof.
  pose proof (platform_type_eqb r Spec.ComDomainSite) as E.
  cbn [Spec.label] in E. single_rule. rewrite E.
  destruct (Spec.is_type Spec.ComDomainSite r); cbn [andb]; [|reflexivity].
  split_tests; try reflexivity; split; reflexivity.
Qed.

Lemma keeps_2_6 : keeps (criterion_2_6 r).
Proof. kept. Qed.

(** The whole loop body, from the initial state. *)
Lemma decide_first_match :
  match Spec.first_match r a with
  | Some ru =>
      is_None (blocking_reason (decide r a)) = false
      /\ outcome_of (decide r a) = Some (rule_outcome ru)
  | None => decide r a = initial r
  end.
Proof.
  pose proof
    (fires_first_then _ _ _ _
       (fires_first_then _ _ _ _
          (fires_first_then _ _ _ _
             (fires_first_then _ _ _ _
                (fires_first_then _ _ _ _
                   (fires_first_then _ _ _ _
                      (fires_first_then _ _ _ _
                         (fires_first_then _ _ _ _
                            fires_first_2_2
                            fires_first_2_1A keeps_2_1A)
                         fires_first_2_1B keeps_2_1B)
                      fires_first_2_3 keeps_2_3)
                   fires_first_2_8 keeps_2_8)
                fires_first_2_4 keeps_2_4)
             fires_first_2_5 keeps_2_5)
          fires_first_2_5B keeps_2_5B)
       fires_first_2_6 keeps_2_6) as H.
  exact (H (initial r) eq_refl).
Qed.

(** What [results] gains from the row. *)
Lemma row_verdicts_first_match :
  map (fun v => (v_number v, v_priority v)) (row_verdicts r a) =
  match Spec.first_match r a with
  | Some ru =>
      [(Some (Spec.rule_id ru),
        Some (Spec.priority_label (Spec.rule_priority ru)))]
  | None => []
  end.
Proof.
  pose proof decide_first_match as H.
  unfold row_verdicts, loop_body.
  destruct (Spec.first_match r a) as [ru|].
  - destruct H as [B O]. unfold outcome_of in O.
    destruct (blocking_reason (decide r a)) as [reason|]; [|discriminate B].
    destruct (criteria_number (decide r a)) as [n|]; [|discriminate O].
    destruct (priority (decide r a)) as [p|]; [|discriminate O].
    inversion O; subst. reflexivity.
  - rewrite H. reflexivity.
Qed.

End Chain.

Lemma loop_body_appends (r : Row) (a : Averages) (results : list Verdict) :
  loop_body r a results = (results ++ row_verdicts r a)%list.
Proof.
  unfold row_verdicts, loop_body.
  destruct (blocking_reason (decide r a)); [reflexivity|].
  now rewrite app_nil_r.
Qed.

Lemma apply_blocking_criteria_flat_map (df : list Row) (a : Averages) :
  apply_blocking_criteria df a = flat_map (fun r => row_verdicts r a) df.
Proof.
  unfold apply_blocking_criteria.
  assert (G : forall acc,
             fold_left (fun results row => loop_body row a results) df acc =
             (acc ++ flat_map (fun r => row_verdicts r a) df)%list).
  { induction df as [|r df IH]; intro acc; simpl.
    - now rewrite app_nil_r.
    - now rewrite IH, loop_body_appends, <- app_assoc. }
  exact (G []).
Qed.

Lemma find_first {A : Type} (p : A -> bool) (l : list A) (x : A) :
  find p l = Some x ->
  exists l1 l2,
    l = (l1 ++ x :: l2)%list /\ p x = true /\ Forall (fun y => p y = false) l1.
Proof.
  induction l as [|y l IH]; simpl; [discriminate|].
  destruct (p y) eqn:E; intro H.
  - inversion H; subst. exists [], l. repeat split; auto.
  - destruct (IH H) as (l1 & l2 & -> & Hx & Hl).
    exists (y :: l1), l2. repeat split; auto.
Qed.

(** C1.  Over a batch, [apply_blocking_criteria] returns the verdicts of
    the rows in order, and every row contributes at most one verdict.  When
    a row has a verdict, its criterion number (and its priority) is that of
    the first rule of the table of §4.3 whose condition holds for the row:
    the rule holds, and every rule before it in the table fails, whatever
    holds after it. *)
Theorem apply_blocking_criteria_first_match :
  forall (df : list Row) (a : Averages),
    apply_blocking_criteria df a = flat_map (fun r => row_verdicts r a) df
    /\ (List.length (apply_blocking_criteria df a) <= List.length df)%nat
    /\ forall r : Row,
        (List.length (row_verdicts r a) <= 1)%nat
        /\ map (fun v => (v_number v, v_priority v)) (row_verdicts r a) =
           match Spec.first_match r a with
           | Some ru =>
               [(Some (Spec.rule_id ru),
                 Some (Spec.priority_label (Spec.rule_priority ru)))]
           | None => []
           end
        /\ forall v : Verdict,
            In v (row_verdicts r a) ->
            exists (before after : list Spec.Rule) (ru : Spec.Rule),
              Spec.rules = (before ++ ru :: after)%list
              /\ v_number v = Some (Spec.rule_id ru)
              /\ Spec.rule_holds ru r a = true
              /\ Forall (fun ru' => Spec.rule_holds ru' r a = false) before.
Proof.
  intros df a.
  assert (L : forall r, (List.length (row_verdicts r a) <= 1)%nat).
  { intro r. unfold row_verdicts, loop_body.
    destruct (blocking_reason (decide r a)); simpl; lia. }
  split; [apply apply_blocking_criteria_flat_map|].
  split.
  - rewrite apply_blocking_criteria_flat_map.
    induction df as [|r df IH]; simpl; [lia|].
    rewrite length_app. specialize (L r). lia.
  - intro r. split; [apply L|]. split; [apply row_verdicts_first_match|].
    intros v Hv.
    pose proof (row_verdicts_first_match r a) as M.
    destruct (Spec.first_match r a) as [ru|] eqn:F.
    + destruct (find_first _ _ _ F) as (l1 & l2 & E & Hru & Hl).
      exists l1, l2, ru. repeat split; auto.
      destruct (row_verdicts r a) as [|w [|w' ws]]; try discriminate M.
      destruct Hv as [->|[]]. simpl in M. congruence.
    + destruct (row_verdicts r a); [contradiction|discriminate M].
Qed.

(** A row for which the conditions of 2.2а, 2.1Б and 2.4 all hold gets the
    verdict of 2.2а alone. *)
Lemma first_of_several_matches :
  let r := mkRow "example.ru" 1000 600 60 100 0.17 90 1 0 0 in
  let a := mkAverages 1 1 50 2 0 10 0 in
  Spec.rule_holds Spec.rule_2_2a r a = true
  /\ Spec.rule_holds Spec.rule_2_1B r a = true
  /\ Spec.rule_holds Spec.rule_2_4 r a = true
  /\ map v_number (apply_blocking_criteria [r] a) = [Some "2.2а"].
Proof. repeat split; reflexivity. Qed.

(* ================================================================== *)
(** ** The baselines *)

Lemma calculate_averages_returns (df : list Row) :
  exists s : Averages, calculate_averages df = Returns s.
Proof. unfold calculate_averages. eexists. reflexivity. Qed.

(** C2, as stated, fails: on the empty batch [calculate_averages] does not
    raise [EmptyBatchError]; it returns. *)
Lemma calculate_averages_empty_no_error :
  calculate_averages [] <> Raises EmptyBatchError
  /\ exists s : Averages, calculate_averages [] = Returns s.
Proof.
  split.
  - discriminate.
  - apply calculate_averages_returns.
Qed.

(** C2, amended.  On the empty batch [calculate_averages] returns a value:
    the six means over all records are NaN (the mean of no element) and
    [avg_cpa] is 0.  No batch makes it raise.  An empty batch is refused
    only later, by [segment_platforms], whose percentages divide by the
    number of records. *)
Theorem calculate_averages_empty :
  calculate_averages [] =
  Returns {| avg_ctr := NaN; avg_cpc := NaN; avg_bounce := NaN;
             avg_depth := NaN; avg_conversions := NaN; avg_spend := NaN;
             avg_cpa := Fin 0 |}
  /\ (forall df : list Row, exists s : Averages,
         calculate_averages df = Returns s)
  /\ (forall a : Averages, segment_platforms [] a = Raises ZeroDivisionError).
Proof.
  split; [reflexivity|]. split.
  - apply calculate_averages_returns.
  - reflexivity.
Qed.

Lemma total_converting (df : list Row) :
  total (map cpa (filter (fun r => (conversions r >? 0)%py) df)) =
  Spec.converting_total df.
Proof.
  unfold total.
  induction df as [|r df IH]; cbn [filter Spec.converting_total];
    [reflexivity|].
  destruct (conversions r >? 0)%py; cbn [map fold_right]; now rewrite IH.
Qed.

Lemma length_converting (df : list Row) :
  List.length (filter (fun r => (conversions r >? 0)%py) df) =
  Spec.converting_count df.
Proof.
  induction df as [|r df IH]; cbn [filter Spec.converting_count];
    [reflexivity|].
  destruct (conversions r >? 0)%py; cbn [List.length]; now rewrite IH.
Qed.

Lemma avg_cpa_mean_cpa (df : list Row) (s : Averages) :
  calculate_averages df = Returns s -> avg_cpa s = Spec.mean_cpa df.
Proof.
  intro H.
  assert (U : avg_cpa s =
              if (0 <? List.length
                    (filter (fun r => (conversions r >? 0%Q)%py) df))%nat
              then mean (map cpa
                    (filter (fun r => (conversions r >? 0)%py) df))
              else Fin 0).
  { unfold calculate_averages in H. injection H as <-. reflexivity. }
  rewrite U. unfold Spec.mean_cpa.
  rewrite <- length_converting, <- total_converting.
  destruct (filter (fun r => (conversions r >? 0)%py) df) as [|r l];
    [reflexivity|].
  change (mean (map cpa (r :: l))) with
    (Fin (total (map cpa (r :: l))
          / inject_Z (Z.of_nat (List.length (map cpa (r :: l)))))).
  now rewrite length_map.
Qed.

Lemma converting_frame (df1 df2 : list Row) (r : Row) :
  (conversions r >? 0)%py = false ->
  Spec.converting_total (df1 ++ r :: df2) = Spec.converting_total (df1 ++ df2)
  /\ Spec.converting_count (df1 ++ r :: df2) =
     Spec.converting_count (df1 ++ df2).
Proof.
  intro H.
  induction df1 as [|x df1 [IHt IHc]];
    cbn [app Spec.converting_total Spec.converting_count].
  - now rewrite H.
  - destruct (conversions x >? 0)%py; now rewrite ?IHt, ?IHc.
Qed.

(** C4.  The [avg_cpa] of the returned baselines is the arithmetic mean of
    the cost-per-action field over the records with conversions > 0: it is
    0 when there is none; otherwise it is a number [m] with
    [m * count = sum], count and sum being taken over those records only;
    and a record without conversions, wherever it stands in the batch,
    does not change it. *)
Theorem avg_cpa_is_mean_of_converting :
  forall df : list Row,
  exists s : Averages,
    calculate_averages df = Returns s
    /\ avg_cpa s = Spec.mean_cpa df
    /\ (Spec.converting_count df = O -> avg_cpa s = Fin 0)
    /\ (Spec.converting_count df <> O ->
        exists m : Q,
          avg_cpa s = Fin m
          /\ m * inject_Z (Z.of_nat (Spec.converting_count df))
             == Spec.converting_total df)
    /\ (forall (df1 df2 : list Row) (r : Row) (s' : Averages),
           df = (df1 ++ r :: df2)%list ->
           (conversions r >? 0)%py = false ->
           calculate_averages (df1 ++ df2) = Returns s' ->
           avg_cpa s' = avg_cpa s).
Proof.
  intro df. destruct (calculate_averages_returns df) as [s Hs].
  exists s. pose proof (avg_cpa_mean_cpa df s Hs) as E.
  split; [exact Hs|]. split; [exact E|]. repeat split.
  - intro Z0. rewrite E. unfold Spec.mean_cpa. now rewrite Z0.
  - intro NZ. rewrite E. unfold Spec.mean_cpa.
    destruct (Spec.converting_count df) as [|n] eqn:C; [contradiction|].
    cbn [Nat.eqb]. eexists. split; [reflexivity|].
    field. intro B.
    assert (P : 0 < inject_Z (Z.of_nat (S n))).
    { change 0 with (inject_Z 0). rewrite <- Zlt_Qlt. lia. }
    lra.
  - intros df1 df2 r s' -> Hr Hs'.
    rewrite E, (avg_cpa_mean_cpa _ _ Hs'). unfold Spec.mean_cpa.
    destruct (converting_frame df1 df2 r Hr) as [-> ->]. reflexivity.
Qed.

(** A batch of three records, one of them without conversions: the mean of
    30 and 60. *)
Lemma avg_cpa_example :
  let df := [mkRow "a" 1000 600 60 100 0.17 90 1 500 0;
             mkRow "b" 1000 10 1 100 10 90 1 30 2;
             mkRow "c" 1000 10 1 100 10 90 1 60 1] in
  exists s : Averages,
    calculate_averages df = Returns s /\ feq (avg_cpa s) (Fin 45) = true.
Proof. eexists. split; reflexivity. Qed.

(* ================================================================== *)
(** ** Evaluating the table on a row that is known by its order facts *)

Lemma Qle_bool_false (x y : Q) : Qle_bool x y = false -> y < x.
Proof. apply (fle_fin_false x y). Qed.

Lemma Qeq_bool_false (x y : Q) : Qeq_bool x y = false -> ~ x == y.
Proof. apply (feq_fin_false x y). Qed.

(** Replaces the quotients of constants by their values. *)
Ltac fold_quotients :=
  repeat match goal with
  | |- context [Qdiv ?x ?y] =>
      let v := eval vm_compute in (Qdiv x y) in change (Qdiv x y) with v
  end.

(** Splits on the first comparison of the goal, records the order fact of
    each side and drops the side that contradicts the context. *)
Ltac case_test :=
  let E := fresh "E" in
  match goal with
  | |- context [Qle_bool ?x ?y] =>
      destruct (Qle_bool x y) eqn:E;
      [apply Qle_bool_iff in E | apply Qle_bool_false in E]
  | |- context [Qeq_bool ?x ?y] =>
      destruct (Qeq_bool x y) eqn:E;
      [apply Qeq_bool_iff in E | apply Qeq_bool_false in E]
  end;
  cbn [andb orb negb find];
  try (exfalso; lra).

(** Opens the conditions of the table for the row [r] and the baselines
    [a], one case per platform type and per baseline that is NaN or not. *)
Ltac open_rules r a :=
  unfold Spec.first_match, Spec.rules;
  cbn [find Spec.rule_holds Spec.rule_2_2a Spec.rule_2_2b Spec.rule_2_2b_2_1
       Spec.rule_2_1A Spec.rule_2_1B Spec.rule_2_3 Spec.rule_2_8
       Spec.rule_2_4 Spec.rule_2_5 Spec.rule_2_5B Spec.rule_2_6];
  unfold Spec.in_high_ctr_band, Spec.suspicious_signals, Spec.coef,
    Spec.is_type, fge, fgt;
  destruct (Spec.classify (platform r));
  destruct (avg_cpa a), (avg_cpc a), (avg_bounce a);
  cbn [Spec.leniency fmul fle flt feq andb orb negb find];
  fold_quotients.

Lemma single_verdict (r : Row) (a : Averages) (ru : Spec.Rule) :
  Spec.first_match r a = Some ru ->
  exists v : Verdict,
    row_verdicts r a = [v]
    /\ v_number v = Some (Spec.rule_id ru)
    /\ v_priority v = Some (Spec.priority_label (Spec.rule_priority ru)).
Proof.
  intro F. pose proof (row_verdicts_first_match r a) as M. rewrite F in M.
  destruct (row_verdicts r a) as [|v [|w ws]]; try discriminate M.
  exists v. simpl in M. inversion M. auto.
Qed.

Lemma no_verdict (r : Row) (a : Averages) :
  Spec.first_match r a = None <-> row_verdicts r a = [].
Proof.
  pose proof (row_verdicts_first_match r a) as M. split; intro H.
  - rewrite H in M. now destruct (row_verdicts r a).
  - rewrite H in M. now destruct (Spec.first_match r a).
Qed.

(** C5.  A row with CTR >= 50 and at least 10 impressions gets exactly one
    verdict, with criterion number "2.2а" and priority КРИТИЧНЫЙ
    (critical), whatever its other fields, its identifier (hence its
    platform type) and the baselines are. *)
Theorem extreme_ctr_blocked :
  forall (r : Row) (a : Averages),
    50 <= ctr r -> 10 <= impressions r ->
    exists v : Verdict,
      row_verdicts r a = [v]
      /\ apply_blocking_criteria [r] a = [v]
      /\ v_number v = Some "2.2а"
      /\ v_priority v = Some "КРИТИЧНЫЙ".
Proof.
  intros r a Hc Hi.
  assert (F : Spec.first_match r a = Some Spec.rule_2_2a).
  { unfold Spec.first_match, Spec.rules.
    cbn [find Spec.rule_holds Spec.rule_2_2a].
    replace (ctr r >=? 50)%py with true by (symmetry; py_decide).
    replace (impressions r >=? 10)%py with true by (symmetry; py_decide).
    reflexivity. }
  destruct (single_verdict r a _ F) as (v & Hv & Hn & Hp).
  exists v. split; [exact Hv|]. split; [|split; assumption].
  rewrite apply_blocking_criteria_flat_map. cbn [flat_map].
  rewrite app_nil_r. exact Hv.
Qed.

(** The scenario of the design document: 1000 impressions, 600 clicks,
    CTR 60, no conversion. *)
Lemma extreme_ctr_blocked_scenario :
  50 <= 60 /\ 10 <= 1000
  /\ exists v : Verdict,
      row_verdicts (mkRow "example.ru" 1000 600 60 0 0 0 0 0 0)
                   (mkAverages NaN NaN NaN NaN NaN NaN 0) = [v]
      /\ apply_blocking_criteria [mkRow "example.ru" 1000 600 60 0 0 0 0 0 0]
                   (mkAverages NaN NaN NaN NaN NaN NaN 0) = [v]
      /\ v_number v = Some "2.2а"
      /\ v_priority v = Some "КРИТИЧНЫЙ".
Proof.
  split; [lra|]. split; [lra|].
  apply (extreme_ctr_blocked (mkRow "example.ru" 1000 600 60 0 0 0 0 0 0));
    simpl; lra.
Defined.

(* ================================================================== *)
(** ** Rows without activity *)

Lemma segment_body_tag (r : Row) (a : Averages) (acc : Segments) :
  segment_body r a acc =
  match segment_tag r a with
  | Spec.Effective =>
      {| effective := effective acc ++ [platform r];
         medium := medium acc;
         ineffective := ineffective acc |}
  | Spec.Ineffective =>
      {| effective := effective acc;
         medium := medium acc;
         ineffective := ineffective acc ++ [platform r] |}
  | Spec.Medium =>
      {| effective := effective acc;
         medium := medium acc ++ [platform r];
         ineffective := ineffective acc |}
  end.
Proof.
  unfold segment_body, segment_tag.
  destruct (test_effective r a); [reflexivity|].
  destruct (test_ineffective r a); reflexivity.
Qed.

(** Opens the two tests of [segment_platforms]. *)
Ltac open_segment a :=
  unfold segment_tag, test_effective, test_ineffective, fge, fgt;
  destruct (avg_cpa a), (avg_bounce a);
  cbn [fmul fle flt feq andb orb negb].

(** C8, as stated, fails: a row with no conversion, no spend and no click
    (so CTR 0) that has 1000 impressions is blocked by criterion 2.3 and
    goes to the ineffective segment. *)
Lemma idle_row_at_scale_blocked :
  ~ (forall (r : Row) (a : Averages),
        conversions r == 0 -> spend r == 0 -> clicks r == 0 ->
        row_verdicts r a = [] /\ segment_tag r a = Spec.Medium).
Proof.
  intro H.
  destruct (H (mkRow "example.ru" 1000 0 0 0 0 0 0 0 0)
              (mkAverages 1 10 50 2 1 100 40)) as [_ T];
    try reflexivity.
  discriminate T.
Qed.

Lemma idle_row_at_scale_verdict :
  map v_number
    (row_verdicts (mkRow "example.ru" 1000 0 0 0 0 0 0 0 0)
                  (mkAverages 1 10 50 2 1 100 40)) = [Some "2.3"]
  /\ segment_tag (mkRow "example.ru" 1000 0 0 0 0 0 0 0 0)
                 (mkAverages 1 10 50 2 1 100 40) = Spec.Ineffective.
Proof. split; reflexivity. Qed.

(** C8, amended.  For a row with conversions = 0, spend = 0 and clicks = 0:
    the engine gives no verdict and [segment_platforms] puts the row in the
    medium segment (the row fails the tests of the effective and of the
    ineffective segment) exactly when its CTR is below 10 and it is not a
    low-CTR row at scale (CTR < 0.20 with at least 1000 impressions).  For
    a row whose CTR is 0, as computed from no click, this is: fewer than
    1000 impressions. *)
Theorem idle_row_kept_and_medium :
  forall (r : Row) (a : Averages),
    conversions r == 0 -> spend r == 0 -> clicks r == 0 ->
    (row_verdicts r a = []
     /\ test_effective r a = false
     /\ test_ineffective r a = false
     /\ segment_tag r a = Spec.Medium
     /\ forall acc : Segments,
         segment_body r a acc =
         {| effective := effective acc;
            medium := medium acc ++ [platform r];
            ineffective := ineffective acc |})
    <-> (ctr r < 10 /\ (0.20 <= ctr r \/ impressions r < 1000)).
Proof.
  intros r a Hc Hs Hk. split.
  - intros (_ & _ & I & _).
    destruct (Qlt_le_dec (ctr r) 10) as [L|L].
    + split; [exact L|].
      destruct (Qlt_le_dec (ctr r) 0.20) as [L2|L2]; [|now left].
      destruct (Qlt_le_dec (impressions r) 1000) as [L3|L3]; [now right|].
      assert (test_ineffective r a = true)
        by (open_segment a; repeat case_test; try reflexivity;
            exfalso; lra).
      congruence.
    + assert (test_ineffective r a = true)
        by (open_segment a; repeat case_test; try reflexivity;
            exfalso; lra).
      congruence.
  - intros [Hlt Hlow].
    assert (V : row_verdicts r a = []).
    { apply no_verdict. open_rules r a;
        repeat case_test; try reflexivity; exfalso; lra. }
    assert (E : test_effective r a = false).
    { unfold test_effective, fgt. cbn [flt].
      replace (Qle_bool (conversions r) 0) with true
        by (symmetry; apply Qle_bool_iff; lra).
      reflexivity. }
    assert (I : test_ineffective r a = false).
    { open_segment a; repeat case_test; try reflexivity; exfalso; lra. }
    assert (T : segment_tag r a = Spec.Medium).
    { unfold segment_tag. now rewrite E, I. }
    repeat split; auto.
    intro acc. now rewrite segment_body_tag, T.
Qed.

(** A row without activity and 500 impressions. *)
Lemma idle_row_kept_and_medium_witness :
  row_verdicts (mkRow "example.ru" 500 0 0 0 0 0 0 0 0)
               (mkAverages 1 10 50 2 1 100 40) = []
  /\ segment_tag (mkRow "example.ru" 500 0 0 0 0 0 0 0 0)
                 (mkAverages 1 10 50 2 1 100 40) = Spec.Medium.
Proof.
  destruct (proj2 (idle_row_kept_and_medium
                     (mkRow "example.ru" 500 0 0 0 0 0 0 0 0)
                     (mkAverages 1 10 50 2 1 100 40)
                     (Qeq_refl 0) (Qeq_refl 0) (Qeq_refl 0)))
    as (V & _ & _ & T & _).
  - split; [reflexivity|]. right. reflexivity.
  - split; assumption.
Defined.

(* ================================================================== *)
(** ** Effective rows are kept *)

(** What the test of the effective segment says of the row. *)
Lemma test_effective_facts (r : Row) (a : Averages) :
  test_effective r a = true ->
  0 < conversions r /\ 0.5 <= ctr r /\ ctr r <= 2
  /\ (exists c : Q, avg_cpa a = Fin c /\ cpa r <= c)
  /\ (exists b : Q, avg_bounce a = Fin b /\ bounce r <= b).
Proof.
  unfold test_effective, fgt. intro H.
  destruct (avg_cpa a) as [|c];
    [cbn [fle] in H; rewrite andb_false_r in H; discriminate H|].
  destruct (avg_bounce a) as [|b];
    [cbn [fle] in H; rewrite andb_false_r in H; discriminate H|].
  py_reflect. repeat split; try assumption.
  - exists c. split; [reflexivity|assumption].
  - exists b. split; [reflexivity|assumption].
Qed.

(** C9.  A row that [segment_platforms] puts in the effective segment
    (conversions > 0, cost per action <= avg_cpa, 0.5 <= CTR <= 2, bounce
    rate <= avg_bounce) gets no verdict from the engine under the same
    baselines: the condition of no rule of the table holds for it.  (The
    signs of the other fields and of the baselines play no part.) *)
Theorem effective_row_not_blocked :
  forall (r : Row) (a : Averages),
    test_effective r a = true ->
    segment_tag r a = Spec.Effective
    /\ Forall (fun ru => Spec.rule_holds ru r a = false) Spec.rules
    /\ row_verdicts r a = []
    /\ apply_blocking_criteria [r] a = [].
Proof.
  intros r a H.
  assert (T : segment_tag r a = Spec.Effective)
    by (unfold segment_tag; now rewrite H).
  destruct (test_effective_facts r a H)
    as (Hc & Hlo & Hhi & (c & Ec & Hcpa) & (b & Eb & Hb)).
  assert (R : Forall (fun ru => Spec.rule_holds ru r a = false) Spec.rules).
  { unfold Spec.rules.
    repeat (apply Forall_cons || apply Forall_nil);
      cbn [Spec.rule_holds Spec.rule_2_2a Spec.rule_2_2b Spec.rule_2_2b_2_1
           Spec.rule_2_1A Spec.rule_2_1B Spec.rule_2_3 Spec.rule_2_8
           Spec.rule_2_4 Spec.rule_2_5 Spec.rule_2_5B Spec.rule_2_6];
      unfold Spec.in_high_ctr_band, Spec.suspicious_signals, Spec.coef,
        Spec.is_type, fge, fgt;
      rewrite ?Ec, ?Eb;
      destruct (Spec.classify (platform r)), (avg_cpc a);
      cbn [Spec.leniency fmul fle flt feq andb orb negb];
      fold_quotients;
      repeat case_test; try reflexivity; exfalso; lra. }
  assert (V : row_verdicts r a = []).
  { apply no_verdict. unfold Spec.first_match.
    induction R as [|ru l Hru _ IH]; cbn [find]; [reflexivity|].
    now rewrite Hru. }
  split; [exact T|]. split; [exact R|]. split; [exact V|].
  rewrite apply_blocking_criteria_flat_map. cbn [flat_map].
  now rewrite V.
Qed.

(** An effective row: 3 conversions at 40 each against a baseline of 45,
    CTR 1, bounce rate 20 against 50. *)
Lemma effective_row_not_blocked_witness :
  row_verdicts (mkRow "com.example.app" 5000 50 1 200 4 20 3 40 3)
               (mkAverages 1 10 50 2 1 100 45) = [].
Proof.
  apply (effective_row_not_blocked
           (mkRow "com.example.app" 5000 50 1 200 4 20 3 40 3)
           (mkAverages 1 10 50 2 1 100 45)).
  reflexivity.
Defined.

(* ================================================================== *)
(** ** Baselines that are zero *)

Lemma rule_ids_distinct :
  NoDup (map Spec.rule_id Spec.rules).
Proof.
  unfold Spec.rules. cbn [map].
  repeat (apply NoDup_cons; [cbn [In]; intuition discriminate|]).
  apply NoDup_nil.
Qed.

(** A verdict carries the number of a rule only if that rule holds. *)
Lemma verdict_number_holds (r : Row) (a : Averages) (v : Verdict)
      (ru : Spec.Rule) :
  In ru Spec.rules ->
  In v (row_verdicts r a) ->
  v_number v = Some (Spec.rule_id ru) ->
  Spec.rule_holds ru r a = true.
Proof.
  intros Hin Hv Hn.
  pose proof (row_verdicts_first_match r a) as M.
  destruct (Spec.first_match r a) as [ru'|] eqn:F.
  - destruct (find_first _ _ _ F) as (l1 & l2 & E & Hru & _).
    destruct (row_verdicts r a) as [|w [|w' ws]]; try discriminate M.
    destruct Hv as [->|[]]. cbn [map] in M.
    assert (I : Spec.rule_id ru' = Spec.rule_id ru) by congruence.
    assert (Hin' : In ru' Spec.rules)
      by (rewrite E; apply in_or_app; right; left; reflexivity).
    assert (ru' = ru).
    { clear - I Hin Hin'. unfold Spec.rules in *. cbn [In] in *.
      repeat (destruct Hin as [<-|Hin]);
        repeat (destruct Hin' as [<-|Hin']);
        try reflexivity; try contradiction;
        vm_compute in I; discriminate I. }
    now subst.
  - destruct (row_verdicts r a); [contradiction|discriminate M].
Qed.

(** C10.  When avg_cpc is 0, the condition of criterion 2.8 fails for
    every row whose average cost per click is not negative (it asks for a
    cost per click below 0.3 * 0 = 0), so no verdict of such a row carries
    the number 2.8. *)
Theorem cheap_click_rule_needs_baseline :
  forall (r : Row) (a : Averages),
    (avg_cpc a ==? 0)%py = true ->
    0 <= cpc r ->
    test_2_8 r a = false
    /\ Spec.rule_holds Spec.rule_2_8 r a = false
    /\ forall v : Verdict,
        In v (row_verdicts r a) -> v_number v <> Some "2.8".
Proof.
  intros r a Hz Hc.
  assert (T : test_2_8 r a = false).
  { unfold test_2_8, fgt.
    destruct (avg_cpc a) as [|q]; [discriminate Hz|].
    py_reflect. cbn [fmul].
    replace (flt (Fin (cpc r)) (Fin (q * 0.3)%Q)) with false
      by (symmetry; py_decide).
    reflexivity. }
  split; [exact T|]. split; [exact T|].
  intros v Hv Hn.
  assert (Spec.rule_holds Spec.rule_2_8 r a = true).
  { apply (verdict_number_holds r a v); auto.
    unfold Spec.rules. cbn [In]. tauto. }
  change (Spec.rule_holds Spec.rule_2_8 r a) with (test_2_8 r a) in *.
  congruence.
Qed.

(** A row with a high CTR and free clicks, against a baseline of 0. *)
Lemma cheap_click_rule_needs_baseline_witness :
  test_2_8 (mkRow "example.ru" 5 1 20 0 0 10 2 0 0)
           (mkAverages 20 0 10 2 0 0 0) = false.
Proof.
  apply (cheap_click_rule_needs_baseline
           (mkRow "example.ru" 5 1 20 0 0 10 2 0 0)
           (mkAverages 20 0 10 2 0 0 0)).
  - reflexivity.
  - simpl. lra.
Defined.

(* ================================================================== *)
(** ** The baseline avg_cpa at zero *)




(* ================================================================== *)
(** ** The leniency toward Yandex placements *)

Lemma yandex_coef_yandex (r : Row) :
  platform_type r = "Яндекс-площадка" -> yandex_coef r = 1.5.
Proof. unfold yandex_coef, is_yandex. now intros ->. Qed.

Lemma yandex_coef_site (r : Row) :
  platform_type r = "Сайт" -> yandex_coef r = 1.0.
Proof. unfold yandex_coef, is_yandex. now intros ->. Qed.

(** Opens the tests of the scaled conditions of the goal. *)
Ltac open_scaled :=
  cbv beta delta [test_2_1A threshold_cpa test_2_1B min_spend
                  test_2_2b_band test_2_2b_expensive test_2_3
                  low_ctr_threshold test_2_4 bounce_threshold fge fgt fst snd];
  cbn [impressions clicks ctr spend cpc bounce depth cpa conversions].

(** C7.  Take two rows with identical numbers, one whose identifier is
    classified as a Yandex placement (coefficient 1.5) and one classified
    as a plain site (coefficient 1.0), against the same baselines, none of
    which is negative.  For each condition the coefficient scales (2.1A,
    2.1Б, both branches of 2.2б, 2.3, 2.4): when it holds for the Yandex
    row it holds for the site row; and there are numbers for which it
    holds for the site row and fails for the Yandex row. *)
Theorem yandex_leniency :
  (forall (ry rg : Row) (a : Averages),
      same_metrics ry rg ->
      platform_type ry = "Яндекс-площадка" ->
      platform_type rg = "Сайт" ->
      (avg_cpa a <? 0)%py = false ->
      (avg_bounce a <? 0)%py = false ->
      yandex_coef ry = 1.5 /\ yandex_coef rg = 1.0
      /\ Forall (fun c => snd c ry a = true -> snd c rg a = true)
                scaled_conditions)
  /\ Forall (fun c =>
               exists (ry rg : Row) (a : Averages),
                 same_metrics ry rg
                 /\ platform_type ry = "Яндекс-площадка"
                 /\ platform_type rg = "Сайт"
                 /\ (avg_cpa a <? 0)%py = false
                 /\ (avg_bounce a <? 0)%py = false
                 /\ snd c rg a = true
                 /\ snd c ry a = false)
            scaled_conditions.
Proof.
  split.
  - intros ry rg a S Hy Hg Hcpa Hb.
    pose proof (yandex_coef_yandex ry Hy) as Cy.
    pose proof (yandex_coef_site rg Hg) as Cg.
    split; [exact Cy|]. split; [exact Cg|].
    destruct S as (Si & Sk & Sc & Ss & Sp & Sb & Sd & Sa & Sv).
    unfold scaled_conditions.
    repeat (apply Forall_cons || apply Forall_nil);
      open_scaled; rewrite Cy, Cg, ?Si, ?Sk, ?Sc, ?Ss, ?Sp, ?Sb, ?Sd, ?Sa, ?Sv;
      destruct (avg_cpa a), (avg_bounce a);
      cbn [fmul fle flt feq andb orb negb] in *;
      fold_quotients;
      try (apply negb_false_iff, Qle_bool_iff in Hcpa);
      try (apply negb_false_iff, Qle_bool_iff in Hb);
      repeat case_test;
      try (intros; reflexivity); try discriminate; exfalso; lra.
  - unfold scaled_conditions.
    repeat (apply Forall_cons || apply Forall_nil).
    + exists (mkRow "yandex.ru" 1000 10 1 900 90 20 3 300 3),
             (mkRow "example.ru" 1000 10 1 900 90 20 3 300 3),
             (mkAverages 1 10 50 2 1 100 100).
      repeat split; reflexivity.
    + exists (mkRow "yandex.ru" 1000 10 1 60 6 20 3 0 0),
             (mkRow "example.ru" 1000 10 1 60 6 20 3 0 0),
             (mkAverages 1 10 50 2 1 100 100).
      repeat split; reflexivity.
    + exists (mkRow "yandex.ru" 100 12 12 24 2 20 3 0 0),
             (mkRow "example.ru" 100 12 12 24 2 20 3 0 0),
             (mkAverages 1 10 50 2 1 100 100).
      repeat split; reflexivity.
    + exists (mkRow "yandex.ru" 100 12 12 300 25 20 3 300 1),
             (mkRow "example.ru" 100 12 12 300 25 20 3 300 1),
             (mkAverages 1 10 50 2 1 100 100).
      repeat split; reflexivity.
    + exists (mkRow "yandex.ru" 2000 3 0.15 6 2 20 3 0 0),
             (mkRow "example.ru" 2000 3 0.15 6 2 20 3 0 0),
             (mkAverages 1 10 50 2 1 100 100).
      repeat split; reflexivity.
    + exists (mkRow "yandex.ru" 1000 20 2 40 2 65 2 0 0),
             (mkRow "example.ru" 1000 20 2 40 2 65 2 0 0),
             (mkAverages 1 10 50 2 1 100 100).
      repeat split; reflexivity.
Qed.

(** The pair of scenario 3 of the design document: a cost per action of
    300 against a baseline of 100 crosses 250, not 375. *)
Lemma yandex_leniency_witness :
  Forall (fun c =>
            snd c (mkRow "yandex.ru" 1000 10 1 900 90 20 3 300 3)
                  (mkAverages 1 10 50 2 1 100 100) = true ->
            snd c (mkRow "example.ru" 1000 10 1 900 90 20 3 300 3)
                  (mkAverages 1 10 50 2 1 100 100) = true)
         scaled_conditions.
Proof.
  apply (proj1 yandex_leniency
           (mkRow "yandex.ru" 1000 10 1 900 90 20 3 300 3)
           (mkRow "example.ru" 1000 10 1 900 90 20 3 300 3)
           (mkAverages 1 10 50 2 1 100 100)).
  - repeat split; reflexivity.
  - reflexivity.
  - reflexivity.
  - reflexivity.
  - reflexivity.
Defined.

(* ================================================================== *)
(** ** The theorems at work *)

(** Two spellings of one identifier get one category. *)
Lemma identify_platform_type_precedence_witness :
  identify_platform_type "An.YANDEX.ru" = identify_platform_type "an.yandex.RU".
Proof.
  apply (proj2 (proj2 (proj2 (proj2 identify_platform_type_precedence)))).
  reflexivity.
Defined.

(** The verdict of a row that matches 2.2а, 2.1Б and 2.4 is the one of
    the first rule of the table. *)
Lemma apply_blocking_criteria_first_match_witness :
  exists (before after : list Spec.Rule) (ru : Spec.Rule),
    Spec.rules = (before ++ ru :: after)%list
    /\ Some "2.2а" = Some (Spec.rule_id ru)
    /\ Spec.rule_holds ru (mkRow "example.ru" 1000 600 60 100 0.17 90 1 0 0)
                          (mkAverages 1 1 50 2 0 10 0) = true
    /\ Forall (fun ru' =>
                 Spec.rule_holds ru'
                   (mkRow "example.ru" 1000 600 60 100 0.17 90 1 0 0)
                   (mkAverages 1 1 50 2 0 10 0) = false) before.
Proof.
  apply (proj2 (proj2 (proj2 (proj2
           (apply_blocking_criteria_first_match
              [mkRow "example.ru" 1000 600 60 100 0.17 90 1 0 0]
              (mkAverages 1 1 50 2 0 10 0)))
           (mkRow "example.ru" 1000 600 60 100 0.17 90 1 0 0)))
         (mkVerdict "example.ru" "Сайт"
            "Экстремально высокий CTR (мошеннический трафик)"
            (Some "2.2а") (Some "КРИТИЧНЫЙ") 1000 600 60 0 0 100 90 1
            "БЛОКИРОВАТЬ НЕМЕДЛЕННО" "Экстремальный CTR")).
  left. reflexivity.
Defined.

(** Dropping the row without conversions from a batch keeps avg_cpa. *)
Lemma avg_cpa_is_mean_of_converting_witness :
  exists s s' : Averages,
    calculate_averages
      [mkRow "a" 1000 600 60 100 0.17 90 1 500 0;
       mkRow "b" 1000 10 1 100 10 90 1 30 2] = Returns s
    /\ calculate_averages [mkRow "b" 1000 10 1 100 10 90 1 30 2] = Returns s'
    /\ avg_cpa s' = avg_cpa s.
Proof.
  destruct (avg_cpa_is_mean_of_converting
              [mkRow "a" 1000 600 60 100 0.17 90 1 500 0;
               mkRow "b" 1000 10 1 100 10 90 1 30 2])
    as (s & Hs & _ & _ & _ & F).
  destruct (calculate_averages_returns
              [mkRow "b" 1000 10 1 100 10 90 1 30 2]) as (s' & Hs').
  exists s, s'. split; [exact Hs|]. split; [exact Hs'|].
  apply (F [] [mkRow "b" 1000 10 1 100 10 90 1 30 2]
           (mkRow "a" 1000 600 60 100 0.17 90 1 500 0) s').
  - reflexivity.
  - reflexivity.
  - exact Hs'.
Defined.

(** Scenario 2 of the design document: a mobile application with CTR 18,
    25 clicks and no conversion.  With 10 impressions or more it is taken
    by 2.2б; criterion 2.5 is reached when fewer are reported. *)
Lemma mobile_app_scenario :
  map v_number
    (row_verdicts (mkRow "com.example.app" 139 25 18 20 0.8 30 2 0 0)
                  (mkAverages 5 1 50 2 1 100 100)) = [Some "2.2б"]
  /\ map v_number
       (row_verdicts (mkRow "com.example.app" 9 25 18 20 0.8 30 2 0 0)
                     (mkAverages 5 1 50 2 1 100 100)) = [Some "2.5"].
Proof. split; vm_compute; reflexivity. Qed.

(** Scenario 3: avg_cpa = 100, 3 conversions at 300 each, coefficient 1:
    300 > 250, criterion 2.1A. *)
Lemma expensive_conversion_scenario :
  map v_number
    (row_verdicts (mkRow "example.ru" 1000 10 1 900 90 20 3 300 3)
                  (mkAverages 1 10 50 2 1 100 100)) = [Some "2.1A"].
Proof. vm_compute. reflexivity. Qed.

(* ================================================================== *)
(** ** The segments partition the batch *)

Lemma segment_body_sizes (r : Row) (a : Averages) (acc : Segments) :
  segment_sizes (segment_body r a acc) = S (segment_sizes acc).
Proof.
  rewrite segment_body_tag. unfold segment_sizes.
  destruct (segment_tag r a); cbn [effective medium ineffective];
    rewrite length_app; cbn [List.length]; lia.
Qed.

Lemma segment_loop_sizes (df : list Row) (a : Averages) (acc : Segments) :
  segment_sizes (fold_left (fun acc row => segment_body row a acc) df acc) =
  (segment_sizes acc + List.length df)%nat.
Proof.
  revert acc. induction df as [|r df IH]; intro acc; cbn [fold_left List.length].
  - lia.
  - rewrite IH, segment_body_sizes. lia.
Qed.

(** On a batch that is not empty, [segment_platforms] returns three lists
    that hold one name per row of the batch: every row is put in exactly
    one segment. *)
Theorem segment_platforms_partition :
  forall (df : list Row) (a : Averages),
    df <> [] ->
    exists s : Segments,
      segment_platforms df a = Returns s
      /\ segment_sizes s = List.length df.
Proof.
  intros df a NE. unfold segment_platforms.
  destruct df as [|r df]; [contradiction|].
  cbn [List.length Nat.eqb]. eexists. split; [reflexivity|].
  rewrite segment_loop_sizes. reflexivity.
Qed.

Lemma segment_platforms_partition_witness :
  exists s : Segments,
    segment_platforms [mkRow "a.ru" 100 20 20 50 2.5 10 2 0 1;
                       mkRow "b.ru" 100 1 1 50 2.5 10 2 0 2]
                      (mkAverages 10 2 10 2 1 50 0) = Returns s
    /\ segment_sizes s = 2%nat.
Proof.
  apply (segment_platforms_partition
           [mkRow "a.ru" 100 20 20 50 2.5 10 2 0 1;
            mkRow "b.ru" 100 1 1 50 2.5 10 2 0 2]).
  discriminate.
Defined.

(* ================================================================== *)
(** * Further properties of the engine *)

(** ** What a verdict can hold *)

(** The assignments of the matching branches of the loop body, in the
    order of the source: 'Критерий_минусации', 'Приоритет_блокировки',
    'Рекомендация', 'Номер_критерия' and the features the branch
    appends. *)
Definition assignments
  : list (string * string * string * string * list string) :=
  [ ("Экстремально высокий CTR (мошеннический трафик)",
     "КРИТИЧНЫЙ", "БЛОКИРОВАТЬ НЕМЕДЛЕННО", "2.2а", ["Экстремальный CTR"]);
    ("Подозрительно высокий CTR без конверсий",
     "ВЫСОКИЙ", "БЛОКИРОВАТЬ", "2.2б", ["Высокий CTR"]);
    ("Высокий CTR + дорогие конверсии",
     "ВЫСОКИЙ", "БЛОКИРОВАТЬ", "2.2б + 2.1", []);
    ("Высокая стоимость конверсии",
     "КРИТИЧНЫЙ", "БЛОКИРОВАТЬ", "2.1A", []);
    ("Нулевые конверсии при значительном расходе",
     "КРИТИЧНЫЙ", "БЛОКИРОВАТЬ", "2.1Б", []);
    ("Критически низкий CTR", "ВЫСОКИЙ", "БЛОКИРОВАТЬ", "2.3", []);
    ("Подозрительно низкая цена клика + высокий CTR",
     "ВЫСОКИЙ", "БЛОКИРОВАТЬ", "2.8", []);
    ("Низкая вовлеченность пользователей",
     "СРЕДНИЙ", "БЛОКИРОВАТЬ", "2.4", []);
    ("Мобильное приложение: подозрительные показатели",
     "ДОПОЛНИТЕЛЬНЫЙ", "БЛОКИРОВАТЬ", "2.5", []);
    ("DSP-площадка: подозрительные показатели",
     "ДОПОЛНИТЕЛЬНЫЙ", "БЛОКИРОВАТЬ", "2.5Б", []);
    ("Домен .com без конверсий при расходе",
     "ДОПОЛНИТЕЛЬНЫЙ", "БЛОКИРОВАТЬ", "2.6", []) ].

(** The decision a branch leaves when it is taken from the initial
    state of the row. *)
Definition assigned (r : Row)
           (e : string * string * string * string * list string)
  : Decision :=
  let '(reason, prio, recomm, number, features) := e in
  fold_left (fun st f => add_feature f st) features
            (block reason prio recomm number (initial r)).

(** The entry of [results] for a row and a decision that blocks it. *)
Definition entry (r : Row) (reason : string) (st : Decision) : Verdict :=
  {| v_platform := platform r;
     v_type := platform_type r;
     v_reason := reason;
     v_number := criteria_number st;
     v_priority := priority st;
     v_impressions := py_int (impressions r);
     v_clicks := py_int (clicks r);
     v_ctr := ctr r;
     v_conversions := py_int (conversions r);
     v_cpa := if (cpa r >? 0)%py then cpa r else 0;
     v_spend := spend r;
     v_bounce := bounce r;
     v_depth := depth r;
     v_recommendation := recommendation st;
     v_features := join ", " (special_features st) |}.

(** A decision is the initial one or the one of a branch. *)
Definition shaped (r : Row) (st : Decision) : Prop :=
  st = initial r \/ exists e, In e assignments /\ st = assigned r e.

Lemma assigned_blocked (r : Row) e :
  is_None (blocking_reason (assigned r e)) = false.
Proof.
  destruct e as [[[[reason prio] recomm] number] features].
  unfold assigned.
  assert (G : forall st, is_None (blocking_reason st) = false ->
                is_None (blocking_reason
                  (fold_left (fun st f => add_feature f st) features st))
                = false).
  { induction features as [|f fs IH]; intros st H; cbn [fold_left]; auto. }
  apply G. reflexivity.
Qed.

(** Closes a goal [shaped r st] where [st] is the initial state or the
    state of one of the branches. *)
Ltac in_assignments :=
  unfold assignments; cbn [In]; repeat (first [left; reflexivity | right]).

Ltac pick_assignment l :=
  lazymatch l with
  | ?e :: ?l' =>
      first [ exists e; split; [|reflexivity]; in_assignments
            | pick_assignment l' ]
  end.

Ltac shaped_here :=
  first
    [ left; reflexivity
    | right;
      let l := eval unfold assignments in assignments in pick_assignment l ].

Lemma shaped_step (r : Row) (f : Decision -> Decision) :
  keeps f -> shaped r (f (initial r)) ->
  forall st, shaped r st -> shaped r (f st).
Proof.
  intros K I st [->|(e & He & ->)]; [exact I|].
  rewrite (K _ (assigned_blocked r e)). right. exists e. auto.
Qed.

Lemma decide_shaped (r : Row) (a : Averages) : shaped r (decide r a).
Proof.
  unfold decide.
  apply (shaped_step r _ (keeps_2_6 r)).
  { unfold criterion_2_6. cbn [initial blocking_reason is_None].
    destruct (platform_type r =? "Сайт (.com)")%string; cbn [andb];
      [destruct (test_2_6 r)|]; shaped_here. }
  apply (shaped_step r _ (keeps_2_5B r)).
  { unfold criterion_2_5B. cbn [initial blocking_reason is_None].
    destruct (platform_type r =? "DSP-площадка")%string; cbn [andb];
      [destruct (test_2_5B r)|]; shaped_here. }
  apply (shaped_step r _ (keeps_2_5 r)).
  { unfold criterion_2_5. cbn [initial blocking_reason is_None].
    destruct (platform_type r =? "Мобильное приложение")%string; cbn [andb];
      [destruct (test_2_5 r)|]; shaped_here. }
  apply (shaped_step r _ (keeps_2_4 r a)).
  { unfold criterion_2_4. cbn [initial blocking_reason is_None].
    destruct (test_2_4 r a); shaped_here. }
  apply (shaped_step r _ (keeps_2_8 r a)).
  { unfold criterion_2_8. cbn [initial blocking_reason is_None].
    destruct (test_2_8 r a); shaped_here. }
  apply (shaped_step r _ (keeps_2_3 r)).
  { unfold criterion_2_3. cbn [initial blocking_reason is_None].
    destruct (test_2_3 r); shaped_here. }
  apply (shaped_step r _ (keeps_2_1B r)).
  { unfold criterion_2_1B. cbn [initial blocking_reason is_None].
    destruct (conversions r ==? 0)%py; cbn [andb];
      [destruct (test_2_1B r)|]; shaped_here. }
  apply (shaped_step r _ (keeps_2_1A r a)).
  { unfold criterion_2_1A. cbn [initial blocking_reason is_None].
    destruct (conversions r >? 0)%py; cbn [andb];
      [destruct (test_2_1A r a)|]; shaped_here. }
  unfold criterion_2_2.
  destruct (test_2_2a r); [shaped_here|].
  destruct (test_2_2b_band r); [|shaped_here].
  destruct (conversions r ==? 0)%py; [shaped_here|].
  destruct (test_2_2b_expensive r a); shaped_here.
Qed.

Lemma add_features_reason (features : list string) (st : Decision) :
  blocking_reason (fold_left (fun st f => add_feature f st) features st) =
  blocking_reason st.
Proof.
  revert st. induction features as [|f fs IH]; intro st; cbn [fold_left];
    [reflexivity|].
  now rewrite IH.
Qed.

Lemma row_verdicts_entry (r : Row) (a : Averages) :
  row_verdicts r a = []
  \/ exists e, In e assignments
               /\ row_verdicts r a =
                  [entry r (fst (fst (fst (fst e)))) (assigned r e)].
Proof.
  unfold row_verdicts, loop_body.
  destruct (decide_shaped r a) as [E|(e & He & E)]; rewrite E.
  - left. reflexivity.
  - right. exists e. split; [exact He|].
    destruct e as [[[[reason prio] recomm] number] features].
    assert (B : blocking_reason
                  (assigned r (reason, prio, recomm, number, features))
                = Some reason)
      by (unfold assigned; now rewrite add_features_reason).
    rewrite B. reflexivity.
Qed.

Lemma in_apply_blocking_criteria (df : list Row) (a : Averages) (v : Verdict) :
  In v (apply_blocking_criteria df a) <->
  exists r, In r df /\ In v (row_verdicts r a).
Proof.
  rewrite apply_blocking_criteria_flat_map. apply in_flat_map.
Qed.

(** The rows of the batch that get a verdict. *)
Definition blocked (a : Averages) (r : Row) : bool :=
  negb (is_None (blocking_reason (decide r a))).

(** The verdicts of a batch are made row by row: the result on two
    batches put end to end is the two results put end to end, so the
    verdict of a row depends on no other row and on no position; a verdict
    is in the result exactly when it is the verdict of a row of the batch;
    and the placements of the result are, in the order of the batch, those
    of the rows the loop body blocks. *)
Theorem apply_blocking_criteria_rowwise :
  forall (a : Averages),
    (forall df1 df2 : list Row,
        apply_blocking_criteria (df1 ++ df2) a =
        (apply_blocking_criteria df1 a ++ apply_blocking_criteria df2 a)%list)
    /\ (forall (df : list Row) (v : Verdict),
           In v (apply_blocking_criteria df a) <->
           exists r, In r df /\ row_verdicts r a = [v])
    /\ (forall df : list Row,
           map v_platform (apply_blocking_criteria df a) =
           map platform (filter (blocked a) df)).
Proof.
  intro a. split; [|split].
  - intros df1 df2. rewrite !apply_blocking_criteria_flat_map.
    apply flat_map_app.
  - intros df v. rewrite in_apply_blocking_criteria.
    split; intros (r & Hr & Hv); exists r; split; auto.
    + destruct (row_verdicts_entry r a) as [E|(e & _ & E)];
        rewrite E in *; [contradiction|].
      destruct Hv as [->|[]]. reflexivity.
    + rewrite Hv. left. reflexivity.
  - intro df. rewrite apply_blocking_criteria_flat_map.
    induction df as [|r df IH]; cbn [flat_map filter map]; [reflexivity|].
    rewrite map_app, IH. unfold blocked at 2.
    unfold row_verdicts, loop_body.
    destruct (blocking_reason (decide r a)); reflexivity.
Qed.

(** Every entry of the result is built from one row of the batch and the
    assignments of one of the eleven branches of the loop body: the
    placement, its type and the numbers are those of the row (the counts
    truncated, the cost per conversion replaced by 0 when it is not
    positive), and the reason, priority, recommendation, criterion number
    and features all come from the same branch.  So the recommendation is
    never ОСТАВИТЬ, it is БЛОКИРОВАТЬ НЕМЕДЛЕННО exactly for criterion
    2.2а, and the reported cost per conversion is never negative. *)
Theorem verdict_fields :
  forall (df : list Row) (a : Averages) (v : Verdict),
    In v (apply_blocking_criteria df a) ->
    (exists r e,
        In r df /\ In e assignments
        /\ v = entry r (fst (fst (fst (fst e)))) (assigned r e))
    /\ v_recommendation v <> "ОСТАВИТЬ"
    /\ (v_recommendation v = "БЛОКИРОВАТЬ НЕМЕДЛЕННО"
        <-> v_number v = Some "2.2а")
    /\ (v_recommendation v = "БЛОКИРОВАТЬ"
        <-> v_number v <> Some "2.2а")
    /\ 0 <= v_cpa v.
Proof.
  intros df a v Hv.
  apply in_apply_blocking_criteria in Hv. destruct Hv as (r & Hr & Hv).
  destruct (row_verdicts_entry r a) as [E|(e & He & E)];
    rewrite E in Hv; [contradiction|].
  destruct Hv as [<-|[]].
  split; [exists r, e; auto|].
  assert (C : 0 <= v_cpa (entry r (fst (fst (fst (fst e)))) (assigned r e))).
  { cbn [v_cpa entry]. unfold fgt.
    destruct (flt (Fin 0) (Fin (cpa r))) eqn:P; [|lra].
    apply flt_fin in P. lra. }
  unfold assignments in He. cbn [In] in He.
  repeat (destruct He as [<-|He]); try contradiction;
    (split; [discriminate|]);
    (split; [split; intro X; first [reflexivity | discriminate X]|]);
    (split; [split; intro X;
             first [reflexivity | discriminate X
                   | exfalso; apply X; reflexivity
                   | intro Y; discriminate Y]|]);
    exact C.
Qed.

Lemma verdict_fields_witness :
  v_recommendation
    (entry costly_row "Высокий CTR + дорогие конверсии"
       (assigned costly_row
          ("Высокий CTR + дорогие конверсии", "ВЫСОКИЙ", "БЛОКИРОВАТЬ",
           "2.2б + 2.1", []))) <> "ОСТАВИТЬ".
Proof.
  apply (verdict_fields [costly_row] no_cpa_baseline).
  left. reflexivity.
Defined.

(* ================================================================== *)
(** ** The baselines are not negative *)

(** The seven baselines. *)
Definition baselines : list (Averages -> pyfloat) :=
  [avg_ctr; avg_cpc; avg_bounce; avg_depth; avg_conversions; avg_spend;
   avg_cpa].

Lemma total_nonneg (l : list Q) :
  (forall x, In x l -> 0 <= x) -> 0 <= total l.
Proof.
  unfold total. induction l as [|x l IH]; intro P; cbn [fold_right];
    [lra|].
  assert (0 <= x) by (apply P; now left).
  assert (0 <= fold_right Qplus 0 l) by (apply IH; intros; apply P; now right).
  lra.
Qed.

Lemma mean_nonneg (l : list Q) :
  (forall x, In x l -> 0 <= x) ->
  (mean l <? 0)%py = false
  /\ (l <> [] -> exists q, mean l = Fin q).
Proof.
  intro P. destruct l as [|x l]; [split; [reflexivity|contradiction]|].
  cbn [mean]. split; [|intros _; eexists; reflexivity].
  apply flt_fin_false.
  assert (N : 0 < inject_Z (Z.of_nat (List.length (x :: l)))).
  { change 0 with (inject_Z 0). rewrite <- Zlt_Qlt. cbn [List.length]. lia. }
  apply Qle_shift_div_l; [exact N|].
  pose proof (total_nonneg (x :: l) P). lra.
Qed.

Lemma calculate_averages_fields (df : list Row) (s : Averages) :
  calculate_averages df = Returns s ->
  avg_ctr s = mean (map ctr df)
  /\ avg_cpc s = mean (map cpc df)
  /\ avg_bounce s = mean (map bounce df)
  /\ avg_depth s = mean (map depth df)
  /\ avg_conversions s = mean (map conversions df)
  /\ avg_spend s = mean (map spend df)
  /\ avg_cpa s =
     if (0 <? List.length
           (filter (fun r => (conversions r >? 0%Q)%py) df))%nat
     then mean (map cpa (filter (fun r => (conversions r >? 0%Q)%py) df))
     else Fin 0.
Proof.
  intro H. unfold calculate_averages in H. injection H as <-.
  repeat split; reflexivity.
Qed.

Lemma nonnegative_columns (r : Row) :
  nonnegative r = true ->
  0 <= ctr r /\ 0 <= cpc r /\ 0 <= bounce r /\ 0 <= depth r
  /\ 0 <= conversions r /\ 0 <= spend r /\ 0 <= cpa r.
Proof.
  unfold nonnegative. cbn [forallb]. intro H.
  repeat (apply andb_true_iff in H; destruct H as [?H H]).
  repeat match goal with
         | X : Qle_bool 0 _ = true |- _ => apply Qle_bool_iff in X
         end.
  repeat split; assumption.
Qed.

(** For a batch none of whose numbers is negative, none of the seven
    baselines is negative: the test [avg < 0] fails for each, also on the
    empty batch, where the six means are NaN.  On a batch that is not
    empty each baseline is a number, not NaN. *)
Theorem baselines_not_negative :
  forall (df : list Row) (s : Averages),
    (forall r, In r df -> nonnegative r = true) ->
    calculate_averages df = Returns s ->
    Forall (fun avg => (avg s <? 0)%py = false) baselines
    /\ (df <> [] -> Forall (fun avg => exists q, avg s = Fin q) baselines).
Proof.
  intros df s P Hs.
  destruct (calculate_averages_fields df s Hs)
    as (E1 & E2 & E3 & E4 & E5 & E6 & E7).
  assert (M : forall col : Row -> Q,
             (forall r, nonnegative r = true -> 0 <= col r) ->
             (mean (map col df) <? 0)%py = false
             /\ (df <> [] -> exists q, mean (map col df) = Fin q)).
  { intros col C.
    destruct (mean_nonneg (map col df)) as [N F].
    - intros x Hx. apply in_map_iff in Hx. destruct Hx as (r & <- & Hr).
      auto.
    - split; [exact N|]. intro NE. apply F.
      destruct df; [contradiction|discriminate]. }
  assert (A : (avg_cpa s <? 0)%py = false /\ exists q, avg_cpa s = Fin q).
  { rewrite E7.
    assert (G : forall y,
               In y (map cpa (filter (fun r => (conversions r >? 0)%py) df)) ->
               0 <= y).
    { intros y Hy. apply in_map_iff in Hy. destruct Hy as (z & <- & Hz).
      apply filter_In in Hz. destruct Hz as [Hz _].
      apply (nonnegative_columns z (P z Hz)). }
    destruct (filter (fun r => (conversions r >? 0)%py) df) as [|x l].
    - split; [reflexivity|eexists; reflexivity].
    - cbn [List.length Nat.ltb Nat.leb].
      destruct (mean_nonneg _ G) as [N F]. split; [exact N|].
      apply F. discriminate. }
  unfold baselines. split.
  - repeat (apply Forall_cons || apply Forall_nil);
      rewrite ?E1, ?E2, ?E3, ?E4, ?E5, ?E6;
      first [ exact (proj1 A)
            | apply M; intros r Hr; apply (nonnegative_columns r Hr) ].
  - intro NE.
    repeat (apply Forall_cons || apply Forall_nil);
      rewrite ?E1, ?E2, ?E3, ?E4, ?E5, ?E6;
      first [ exact (proj2 A)
            | apply M; [intros r Hr; apply (nonnegative_columns r Hr)
                       |exact NE] ].
Qed.

Lemma baselines_not_negative_witness :
  exists s : Averages,
    calculate_averages [mkRow "a.ru" 100 20 20 50 5 10 2 5 1;
                        mkRow "b.ru" 100 60 60 50 10 10 2 0 2] = Returns s
    /\ Forall (fun avg => (avg s <? 0)%py = false) baselines.
Proof.
  destruct (calculate_averages_returns
              [mkRow "a.ru" 100 20 20 50 5 10 2 5 1;
               mkRow "b.ru" 100 60 60 50 10 10 2 0 2]) as [s Hs].
  exists s. split; [exact Hs|].
  apply (baselines_not_negative
           [mkRow "a.ru" 100 20 20 50 5 10 2 5 1;
            mkRow "b.ru" 100 60 60 50 10 10 2 0 2] s); [|exact Hs].
  intros r [<-|[<-|[]]]; reflexivity.
Defined.

(* ================================================================== *)
(** ** The ineffective segment and the blocking list *)

(** The comment on the test of the ineffective segment announces that its
    rows "will be in the blocking report".  That holds for a row whose
    placement is not a Yandex one and that has at least 10 impressions,
    against a positive avg_cpa: if the test of the ineffective segment
    holds for such a row, the engine gives it a verdict. *)
Theorem ineffective_rows_are_blocked :
  forall (r : Row) (a : Averages),
    platform_type r <> "Яндекс-площадка" ->
    10 <= impressions r ->
    (avg_cpa a >? 0)%py = true ->
    test_ineffective r a = true ->
    exists v : Verdict, row_verdicts r a = [v].
Proof.
  intros r a Hy Hi Ha I.
  assert (N : Spec.first_match r a <> None).
  { intro F. unfold Spec.first_match in F.
    assert (R : forall ru, In ru [Spec.rule_2_2a; Spec.rule_2_2b;
                                  Spec.rule_2_1A; Spec.rule_2_1B;
                                  Spec.rule_2_3] ->
                           Spec.rule_holds ru r a = false).
    { intros ru Hru. apply (find_none _ _ F).
      unfold Spec.rules. cbn [In] in *. tauto. }
    pose proof (R _ (or_introl eq_refl)) as R1.
    pose proof (R _ (or_intror (or_introl eq_refl))) as R2.
    pose proof (R _ (or_intror (or_intror (or_introl eq_refl)))) as R3.
    pose proof (R _ (or_intror (or_intror (or_intror (or_introl eq_refl)))))
      as R4.
    pose proof (R _ (or_intror (or_intror (or_intror (or_intror
                       (or_introl eq_refl)))))) as R5.
    clear R F.
    rewrite platform_type_label in Hy.
    cbn [Spec.rule_holds Spec.rule_2_2a Spec.rule_2_2b Spec.rule_2_1A
         Spec.rule_2_1B Spec.rule_2_3] in R1, R2, R3, R4, R5.
    revert R1 R2 R3 R4 R5 I.
    unfold test_ineffective, Spec.in_high_ctr_band, Spec.coef, fge, fgt
      in *.
    destruct (Spec.classify (platform r));
      try (exfalso; apply Hy; reflexivity);
      (destruct (avg_cpa a) as [|c]; [discriminate Ha|]);
      apply flt_fin in Ha;
      cbn [Spec.leniency fmul fle flt feq andb orb negb];
      fold_quotients;
      repeat case_test; intros; try discriminate; try congruence;
      exfalso; lra. }
  destruct (Spec.first_match r a) as [ru|] eqn:F; [|contradiction].
  destruct (single_verdict r a ru F) as (v & Hv & _). exists v. exact Hv.
Qed.

(** A site with CTR 12 on 100 impressions and no conversion. *)
Lemma ineffective_rows_are_blocked_witness :
  exists v : Verdict,
    row_verdicts (mkRow "example.ru" 100 12 12 24 2 20 3 0 0)
                 (mkAverages 1 10 50 2 1 100 100) = [v].
Proof.
  apply (ineffective_rows_are_blocked
           (mkRow "example.ru" 100 12 12 24 2 20 3 0 0)
           (mkAverages 1 10 50 2 1 100 100)).
  - discriminate.
  - apply Qle_bool_iff. reflexivity.
  - reflexivity.
  - reflexivity.
Defined.

(** Without these conditions the announcement fails: the Yandex placement
    of the same numbers is in the ineffective segment and gets no verdict,
    and so does a site with fewer than 10 impressions. *)
Lemma ineffective_rows_not_blocked :
  (segment_tag (mkRow "yandex.ru" 100 12 12 24 2 20 3 0 0)
               (mkAverages 1 10 50 2 1 100 100) = Spec.Ineffective
   /\ row_verdicts (mkRow "yandex.ru" 100 12 12 24 2 20 3 0 0)
                   (mkAverages 1 10 50 2 1 100 100) = [])
  /\ (segment_tag (mkRow "example.ru" 5 3 60 15 5 20 3 0 0)
                  (mkAverages 1 10 50 2 1 100 100) = Spec.Ineffective
      /\ row_verdicts (mkRow "example.ru" 5 3 60 15 5 20 3 0 0)
                      (mkAverages 1 10 50 2 1 100 100) = []).
Proof. repeat split; vm_compute; reflexivity. Qed.

(* ================================================================== *)
(** ** The segments as selections of the batch *)

Definition goes_effective (a : Averages) (r : Row) : bool :=
  test_effective r a.

Definition goes_ineffective (a : Averages) (r : Row) : bool :=
  negb (test_effective r a) && test_ineffective r a.

Definition goes_medium (a : Averages) (r : Row) : bool :=
  negb (test_effective r a) && negb (test_ineffective r a).

Lemma segment_loop_selects (df : list Row) (a : Averages) (acc : Segments) :
  fold_left (fun acc row => segment_body row a acc) df acc =
  {| effective :=
       (effective acc ++ map platform (filter (goes_effective a) df))%list;
     medium :=
       (medium acc ++ map platform (filter (goes_medium a) df))%list;
     ineffective :=
       (ineffective acc
        ++ map platform (filter (goes_ineffective a) df))%list |}.
Proof.
  revert acc. induction df as [|r df IH]; intro acc;
    cbn [fold_left filter map].
  - rewrite !app_nil_r. destruct acc; reflexivity.
  - rewrite IH. unfold segment_body, goes_effective, goes_medium,
      goes_ineffective.
    destruct (test_effective r a); cbn [negb andb];
      [|destruct (test_ineffective r a)];
      cbn [effective medium ineffective map];
      rewrite <- ?app_assoc; reflexivity.
Qed.

(** On a batch that is not empty, each of the three lists holds, in the
    order of the batch, the placements of the rows that pass the test of
    that segment and of none before it: the effective test first, then
    the ineffective one, the rest being medium.  A placement is therefore
    listed once for each of its rows (twice when two rows carry the same
    name). *)
Theorem segment_platforms_selects :
  forall (df : list Row) (a : Averages),
    df <> [] ->
    segment_platforms df a =
    Returns {| effective := map platform (filter (goes_effective a) df);
               medium := map platform (filter (goes_medium a) df);
               ineffective :=
                 map platform (filter (goes_ineffective a) df) |}.
Proof.
  intros df a NE. unfold segment_platforms.
  destruct df as [|r df]; [contradiction|].
  cbn [List.length Nat.eqb]. rewrite segment_loop_selects. reflexivity.
Qed.

Lemma segment_platforms_selects_witness :
  segment_platforms [mkRow "a.ru" 100 20 20 50 2.5 10 2 0 1;
                     mkRow "b.ru" 100 1 1 50 2.5 10 2 0 2]
                    (mkAverages 10 2 10 2 1 50 0) =
  Returns {| effective := ["b.ru"]; medium := ["a.ru"]; ineffective := [] |}.
Proof.
  apply (segment_platforms_selects
           [mkRow "a.ru" 100 20 20 50 2.5 10 2 0 1;
            mkRow "b.ru" 100 1 1 50 2.5 10 2 0 2]
           (mkAverages 10 2 10 2 1 50 0)).
  discriminate.
Defined.

(* ================================================================== *)
(** ** The classes of identifiers *)

Lemma classify_cases (name : string) :
  match Spec.classify name with
  | Spec.YandexNetworkPlacement =>
      contains "yandex" (lower name) = true \/ lower name = "dzen.ru"
  | Spec.DspPlacement =>
      contains "yandex" (lower name) = false /\ lower name <> "dzen.ru"
      /\ startswith (lower name) "dsp-" = true
  | Spec.MobileApp =>
      contains "yandex" (lower name) = false /\ lower name <> "dzen.ru"
      /\ startswith (lower name) "dsp-" = false
      /\ existsb (startswith (lower name)) mobile_prefixes = true
      /\ ((2 <= count (lower name) ".")%nat
          \/ contains "dzen" (lower name) = false)
  | Spec.ComDomainSite | Spec.GenericSite =>
      contains "yandex" (lower name) = false /\ lower name <> "dzen.ru"
      /\ startswith (lower name) "dsp-" = false
      /\ (existsb (startswith (lower name)) mobile_prefixes = false
          \/ ((count (lower name) "." < 2)%nat
              /\ contains "dzen" (lower name) = true))
  end.
Proof.
  unfold Spec.classify.
  destruct (contains "yandex" (lower name)) eqn:Y; cbn [orb negb];
    [left; reflexivity|].
  destruct (lower name =? "dzen.ru")%string eqn:D;
    [apply String.eqb_eq in D; right; exact D|].
  apply String.eqb_neq in D.
  destruct (startswith (lower name) "dsp-") eqn:P; [auto|].
  destruct (existsb (startswith (lower name)) mobile_prefixes) eqn:M;
    cbn [andb].
  - destruct (2 <=? count (lower name) ".")%nat eqn:C; cbn [orb].
    + apply Nat.leb_le in C. auto 6.
    + apply Nat.leb_gt in C.
      destruct (contains "dzen" (lower name)) eqn:Z; cbn [negb].
      * destruct (endswith (lower name) ".com"); auto 6.
      * auto 6.
  - destruct (endswith (lower name) ".com"); auto 6.
Qed.

(** Which identifiers get which type, read backwards.  An identifier is a
    Yandex placement exactly when, lower-cased, it contains "yandex" or
    is "dzen.ru", whatever else it looks like.  Past that test the
    identifier contains no "yandex", so in the loop over the prefixes the
    test ['yandex' in platform_name] is never true: a mobile application
    is an identifier that is not a Yandex placement, does not start with
    "dsp-", starts with one of the prefixes and has two dots or no
    "dzen". *)
Theorem platform_type_classes :
  forall name : string,
    (identify_platform_type name = "Яндекс-площадка" <->
     contains "yandex" (lower name) = true \/ lower name = "dzen.ru")
    /\ (identify_platform_type name <> "Яндекс-площадка" ->
        contains "yandex" (lower name) = false)
    /\ (identify_platform_type name = "DSP-площадка" <->
        identify_platform_type name <> "Яндекс-площадка"
        /\ startswith (lower name) "dsp-" = true)
    /\ (identify_platform_type name = "Мобильное приложение" <->
        identify_platform_type name <> "Яндекс-площадка"
        /\ startswith (lower name) "dsp-" = false
        /\ existsb (startswith (lower name)) mobile_prefixes = true
        /\ ((2 <= count (lower name) ".")%nat
            \/ contains "dzen" (lower name) = false)).
Proof.
  intro name. rewrite identify_platform_type_label.
  pose proof (classify_cases name) as K.
  destruct (Spec.classify name); cbn [Spec.label].
  - (* Yandex *)
    split; [split; [intros _; exact K|reflexivity]|].
    split; [intro N; exfalso; apply N; reflexivity|].
    split; (split; [intro E; discriminate E
                   |intros [N _]; exfalso; apply N; reflexivity]).
  - (* DSP *)
    destruct K as (Y & D & P).
    split; [split; [intro E; discriminate E
                   |intros [Y'|D']; [congruence|contradiction]]|].
    split; [intros _; exact Y|].
    split; [split; [intros _; split; [discriminate|exact P]|reflexivity]|].
    split; [intro E; discriminate E|intros (_ & P' & _); congruence].
  - (* mobile application *)
    destruct K as (Y & D & P & M & G).
    split; [split; [intro E; discriminate E
                   |intros [Y'|D']; [congruence|contradiction]]|].
    split; [intros _; exact Y|].
    split; [split; [intro E; discriminate E|intros [_ P']; congruence]|].
    split; [intros _; repeat split; auto; discriminate|reflexivity].
  - (* .com site *)
    destruct K as (Y & D & P & G).
    split; [split; [intro E; discriminate E
                   |intros [Y'|D']; [congruence|contradiction]]|].
    split; [intros _; exact Y|].
    split; [split; [intro E; discriminate E|intros [_ P']; congruence]|].
    split; [intro E; discriminate E|].
    intros (_ & _ & M & [C|Z]); destruct G as [M'|[C' Z']];
      try congruence; lia.
  - (* site *)
    destruct K as (Y & D & P & G).
    split; [split; [intro E; discriminate E
                   |intros [Y'|D']; [congruence|contradiction]]|].
    split; [intros _; exact Y|].
    split; [split; [intro E; discriminate E|intros [_ P']; congruence]|].
    split; [intro E; discriminate E|].
    intros (_ & _ & M & [C|Z]); destruct G as [M'|[C' Z']];
      try congruence; lia.
Qed.

(** "ru.dzen" is no Yandex placement, so it holds no "yandex". *)
Lemma platform_type_classes_witness :
  contains "yandex" (lower "ru.dzen") = false.
Proof.
  apply (proj1 (proj2 (platform_type_classes "ru.dzen"))).
  discriminate.
Defined.

(* ================================================================== *)
(** * The report and the run *)

(** ** Calls that can raise *)

(** What a call of the report or of the run does: it completes, it raises
    one of the exceptions above, or it raises [KeyError] for a column. *)
Inductive run (A : Type) : Type :=
| Completes (a : A)
| Fails (e : exception)
| FailsKeyError (key : string).
Arguments Completes {A} a.
Arguments Fails {A} e.
Arguments FailsKeyError {A} key.

Definition bind {A B : Type} (m : run A) (k : A -> run B) : run B :=
  match m with
  | Completes a => k a
  | Fails e => Fails e
  | FailsKeyError key => FailsKeyError key
  end.

Notation "x <- m ;; k" := (bind m (fun x => k))
  (at level 61, m at next level, right associativity).

Definition of_outcome {A : Type} (o : outcome A) : run A :=
  match o with
  | Returns a => Completes a
  | Raises e => Fails e
  end.

(** [x / y] on two Python integers (lengths). *)
Definition int_div (x y : nat) : run Q :=
  if (y =? 0)%nat then Fails ZeroDivisionError
  else Completes (inject_Z (Z.of_nat x) / inject_Z (Z.of_nat y)).

(** A numpy float: a division by zero gives an infinity or NaN, it does
    not raise. *)
Inductive npfloat : Type :=
| NpNaN
| NpInf (negative : bool)
| NpFin (q : Q).

Definition np_div (x y : Q) : npfloat :=
  if Qeq_bool y 0 then
    if Qeq_bool x 0 then NpNaN else NpInf (negb (Qle_bool 0 x))
  else NpFin (x / y).

Definition np_mul (x : npfloat) (k : Q) : npfloat :=
  match x with
  | NpFin q => NpFin (q * k)
  | NpInf s =>
      if Qeq_bool k 0 then NpNaN
      else NpInf (if Qle_bool 0 k then s else negb s)
  | NpNaN => NpNaN
  end.

(** ** Frames of verdicts *)

(** [pd.DataFrame(results)] has the keys of the dictionaries as columns:
    built from no dictionary, it has no column at all.  [frame[key]]
    raises [KeyError] then. *)
Definition column {A : Type} (key : string) (get : Verdict -> A)
           (frame : list Verdict) : run (list A) :=
  match frame with
  | [] => FailsKeyError key
  | _ :: _ => Completes (map get frame)
  end.

(** [frame[mask]] for a mask computed from one column. *)
Definition select {A : Type} (key : string) (get : Verdict -> A)
           (test : A -> bool) (frame : list Verdict) : run (list Verdict) :=
  _ <- column key get frame ;;
  Completes (filter (fun v => test (get v)) frame).

(** [frame.nlargest(n, 'Расход_руб')]: the rows in decreasing order of
    the column, rows of equal value in the order of the frame, cut after
    [n] rows. *)
Fixpoint insert_desc {A : Type} (key : A -> Q) (x : A) (l : list A)
  : list A :=
  match l with
  | [] => [x]
  | y :: rest =>
      if negb (Qle_bool (key y) (key x)) then y :: insert_desc key x rest
      else x :: l
  end.

Definition sort_desc {A : Type} (key : A -> Q) (l : list A) : list A :=
  fold_right (insert_desc key) [] l.

Definition nlargest {A : Type} (n : nat) (key : A -> Q) (l : list A)
  : list A :=
  firstn n (sort_desc key l).

(** The keys of [frame.groupby(key)]: the values of the column, each
    once, in increasing order; a missing value ([None]) makes no group. *)
Fixpoint insert_key (k : string) (l : list string) : list string :=
  match l with
  | [] => [k]
  | x :: rest =>
      if String.leb k x then k :: l else x :: insert_key k rest
  end.

Definition sort_keys (l : list string) : list string :=
  fold_right insert_key [] l.

Fixpoint present (l : list (option string)) : list string :=
  match l with
  | [] => []
  | Some k :: rest => k :: present rest
  | None :: rest => present rest
  end.

Definition group_keys (key : Verdict -> option string)
           (frame : list Verdict) : list string :=
  sort_keys (nodup string_dec (present (map key frame))).

Definition in_group (key : Verdict -> option string) (k : string)
           (v : Verdict) : bool :=
  match key v with
  | Some k' => String.eqb k' k
  | None => false
  end.

(** One row of [groupby(key).agg({'Площадка': 'count', 'Расход_руб':
    'sum'})] with the column 'Процент' added: key, count, sum, share. *)
Record Group : Type := mkGroup {
  g_key : string;
  g_count : nat;
  g_spend : Q;
  g_percent : Q
}.

Definition groups (key : Verdict -> option string) (frame : list Verdict)
  : list Group :=
  map (fun k =>
         let rows := filter (in_group key k) frame in
         {| g_key := k;
            g_count := List.length rows;
            g_spend := total (map v_spend rows);
            g_percent :=
              inject_Z (Z.of_nat (List.length rows))
              / inject_Z (Z.of_nat (List.length frame)) * 100 |})
      (group_keys key frame).

(** ** [create_analytical_report] *)

(** A value put in a line by an f-string, before it is formatted. *)
Inductive value : Type :=
| VInt (n : Z)
| VNum (q : Q)
| VMean (x : pyfloat)
| VShare (x : npfloat)
| VStr (s : string).

(** One line of the report: the text of the f-string, with its fields as
    written in the source, and the values of the fields in order. *)
Inductive line : Type :=
| Line (text : string) (values : list value).

(** [s * n] *)
Fixpoint times (s : string) (n : nat) : string :=
  match n with
  | O => ""
  | S m => s ++ times s m
  end.

Definition sep_line : line := Line (times "=" 80) [].
Definition dash_line : line := Line (times "-" 80) [].
Definition empty_line : line := Line "" [].

Definition len {A : Type} (l : list A) : nat := List.length l.

(** A length or a count as a field of a line. *)
Definition VLen (n : nat) : value := VInt (Z.of_nat n).

Definition sum_spend (frame : list Verdict) : Q := total (map v_spend frame).

Definition group_line (g : Group) : line :=
  Line "Критерий {}: {} площадок ({:.1f}%), расход {:.2f} руб."
       [VStr (g_key g); VLen (g_count g); VNum (g_percent g);
        VNum (g_spend g)].

Definition type_line (g : Group) : line :=
  Line "{}: {} площадок ({:.1f}%), расход {:.2f} руб."
       [VStr (g_key g); VLen (g_count g); VNum (g_percent g);
        VNum (g_spend g)].

Definition top_line (v : Verdict) : line :=
  Line "{}: {:.2f} руб., CTR {:.2f}%, конверсий {}, {}"
       [VStr (v_platform v); VNum (v_spend v); VNum (v_ctr v);
        VInt (v_conversions v); VStr (v_reason v)].

Definition has_priority (p : string) (v : Verdict) : bool :=
  match v_priority v with
  | Some q => String.eqb q p
  | None => false
  end.

Definition has_type (t : string) (v : Verdict) : bool :=
  String.eqb (v_type v) t.

(** The part of section 6 under [if len(blocking_df) > 0]. *)
Definition recommendations (blocking_df : list Verdict) : list line :=
  let critical := filter (has_priority "КРИТИЧНЫЙ") blocking_df in
  let high := filter (has_priority "ВЫСОКИЙ") blocking_df in
  let mobile := filter (has_type "Мобильное приложение") blocking_df in
  let dsp := filter (has_type "DSP-площадка") blocking_df in
  let yandex := filter (has_type "Яндекс-площадка") blocking_df in
  ([ Line "ПРИОРИТЕТ БЛОКИРОВКИ:" [];
     Line "1. КРИТИЧНЫЙ приоритет: {} площадок - блокировать НЕМЕДЛЕННО"
          [VLen (len critical)];
     Line "   Экономия: {:.2f} руб." [VNum (sum_spend critical)];
     Line "2. ВЫСОКИЙ приоритет: {} площадок - блокировать после проверки"
          [VLen (len high)];
     Line "   Экономия: {:.2f} руб." [VNum (sum_spend high)];
     empty_line ]
   ++ (if (0 <? len mobile)%nat then
         [ Line "ТОП-10 МОБИЛЬНЫХ ПРИЛОЖЕНИЙ ПО РАСХОДУ:" [] ]
         ++ map (fun v => Line "  - {}: {:.2f} руб., CTR {:.2f}%"
                               [VStr (v_platform v); VNum (v_spend v);
                                VNum (v_ctr v)])
                (nlargest 10 v_spend mobile)
         ++ [ Line "Рекомендация: Мобильные приложения демонстрируют высокий CTR без конверсий." [];
              Line "Это указывает на случайные клики. Блокировать {} приложений."
                   [VLen (len mobile)];
              empty_line ]
       else [])
   ++ (if (0 <? len dsp)%nat then
         [ Line "АНАЛИЗ DSP-ПЛОЩАДОК:" [];
           Line "К блокировке: {} площадок, расход {:.2f} руб."
                [VLen (len dsp); VNum (sum_spend dsp)] ]
         ++ map (fun v => Line "  - {}: {:.2f} руб., {}"
                               [VStr (v_platform v); VNum (v_spend v);
                                VStr (v_reason v)]) dsp
         ++ [ Line "Рекомендация: Программатик-площадки показывают низкую эффективность." [];
              empty_line ]
       else [])
   ++ (if (0 <? len yandex)%nat then
         [ Line "АНАЛИЗ ЯНДЕКС-ПЛОЩАДОК:" [];
           Line "К блокировке: {} площадок, расход {:.2f} руб."
                [VLen (len yandex); VNum (sum_spend yandex)] ]
         ++ map (fun v => Line "  - {}: {:.2f} руб., {}"
                               [VStr (v_platform v); VNum (v_spend v);
                                VStr (v_reason v)]) yandex
         ++ [ Line "ВНИМАНИЕ: Яндекс-площадки обычно качественные. Проверьте критерии повторно." [];
              empty_line ]
       else []))%list.

Definition create_analytical_report
           (df : list Row) (blocking_df : list Verdict)
           (averages : Averages) (segments : Segments) : run (list line) :=
  let report :=
    [ sep_line; Line "АНАЛИТИЧЕСКАЯ СПРАВКА" [];
      Line "Анализ площадок Яндекс Директ РСЯ" []; sep_line; empty_line;
      Line "1. ОБЩАЯ СТАТИСТИКА" []; dash_line;
      Line "Период анализа: 24.10.2025 - 25.10.2025" [];
      Line "Всего площадок проанализировано: {}" [VLen (len df)] ] in
  share_blocked <- int_div (len blocking_df) (len df) ;;
  let report :=
    (report ++
     [ Line "Площадок к блокировке: {} ({:.1f}%)"
            [VLen (len blocking_df); VNum (share_blocked * 100)] ])%list in
  share_medium <- int_div (len (medium segments)) (len df) ;;
  let report :=
    (report ++
     [ Line "Площадок к наблюдению (средние): {} ({:.1f}%)"
            [VLen (len (medium segments)); VNum (share_medium * 100)] ])%list
  in
  share_effective <- int_div (len (effective segments)) (len df) ;;
  let report :=
    (report ++
     [ Line "Эффективных площадок: {} ({:.1f}%)"
            [VLen (len (effective segments)); VNum (share_effective * 100)];
       empty_line ])%list in
  let total_spend := total (map spend df) in
  let ineffective_spend :=
    if (0 <? len blocking_df)%nat then sum_spend blocking_df else 0 in
  let report :=
    (report ++
     [ Line "2. ФИНАНСОВАЯ ОЦЕНКА" []; dash_line;
       Line "Общий расход на все площадки: {:.2f} руб." [VNum total_spend];
       Line "Расход на неэффективные площадки: {:.2f} руб."
            [VNum ineffective_spend];
       Line "Доля расхода на неэффективные площадки: {:.1f}%"
            [VShare (np_mul (np_div ineffective_spend total_spend) 100)] ])%list
  in
  let effective_platforms :=
    filter (fun r => existsb (String.eqb (platform r)) (effective segments))
           df in
  let effective_conv :=
    filter (fun r => (conversions r >? 0%Q)%py) effective_platforms in
  let report :=
    (report ++
     [ if (0 <? len effective_conv)%nat then
         Line "Средняя стоимость конверсии по эффективным площадкам: {:.2f} руб."
              [VMean (mean (map cpa effective_conv))]
       else
         Line "Средняя стоимость конверсии по эффективным площадкам: данных нет"
              [] ])%list in
  blocked_conv <- select "Конверсий" v_conversions (fun n => (0 <? n)%Z)
                         blocking_df ;;
  let report :=
    (report ++
     [ if (0 <? len blocked_conv)%nat then
         Line "Средняя стоимость конверсии по неэффективным площадкам: {:.2f} руб."
              [VMean (mean (map v_cpa blocked_conv))]
       else
         Line "Средняя стоимость конверсии по неэффективным площадкам: конверсий нет"
              [];
       Line "Потенциальная экономия бюджета при блокировке: {:.2f} руб."
            [VNum ineffective_spend];
       empty_line;
       Line "3. РАСПРЕДЕЛЕНИЕ ПО КРИТЕРИЯМ МИНУСАЦИИ" []; dash_line ])%list in
  let report :=
    (report ++
     (if (0 <? len blocking_df)%nat then
        map group_line (groups v_number blocking_df)
      else [ Line "Площадок к блокировке не найдено." [] ])
     ++ [ empty_line;
          Line "4. РАСПРЕДЕЛЕНИЕ ПО ТИПАМ ПЛОЩАДОК" []; dash_line ])%list in
  let report :=
    (report ++
     (if (0 <? len blocking_df)%nat then
        map type_line (groups (fun v => Some (v_type v)) blocking_df)
      else [])
     ++ [ empty_line;
          Line "5. ТОП-10 САМЫХ РАСХОДНЫХ НЕЭФФЕКТИВНЫХ ПЛОЩАДОК" [];
          dash_line ])%list in
  let report :=
    (report ++
     (if (0 <? len blocking_df)%nat then
        map top_line (nlargest 10 v_spend blocking_df)
      else [])
     ++ [ empty_line; Line "6. РЕКОМЕНДАЦИИ" []; dash_line ])%list in
  let report :=
    (report ++
     (if (0 <? len blocking_df)%nat then recommendations blocking_df else [])
     ++ [ sep_line; Line "КОНЕЦ АНАЛИТИЧЕСКОЙ СПРАВКИ" []; sep_line ])%list in
  Completes report.

(** ** [main], from the loaded frame on *)

(** The files the run writes, in order. *)
Inductive written : Type :=
| CsvFile (rows : list Verdict)      (* Площадки_к_блокировке.csv *)
| ReportFile (report : list line).   (* Аналитическая_справка.txt *)

(** Steps 2 to 6 of [main] on the frame that step 1 loaded: the files
    written so far and how the run ends.  (The console output is left
    out; writing a file is taken to succeed.) *)
Definition main_steps (df : list Row) : list written * run unit :=
  match calculate_averages df with
  | Raises e => ([], Fails e)
  | Returns averages =>
      let blocking_df := apply_blocking_criteria df averages in
      match segment_platforms df averages with
      | Raises e => ([], Fails e)
      | Returns segments =>
          let files :=
            if (0 <? len blocking_df)%nat then [CsvFile blocking_df]
            else [] in
          match create_analytical_report df blocking_df averages segments with
          | Completes report =>
              ((files ++ [ReportFile report])%list, Completes tt)
          | Fails e => (files, Fails e)
          | FailsKeyError key => (files, FailsKeyError key)
          end
      end
  end.

(* ================================================================== *)
(** ** How the report ends *)

Lemma int_div_completes (x y : nat) :
  y <> O -> exists q, int_div x y = Completes q.
Proof.
  intro NZ. unfold int_div. destruct y as [|y]; [contradiction|].
  cbn [Nat.eqb]. eexists. reflexivity.
Qed.

Lemma report_completes (df : list Row) (blocking_df : list Verdict)
      (averages : Averages) (segments : Segments) :
  df <> [] -> blocking_df <> [] ->
  exists report,
    create_analytical_report df blocking_df averages segments =
    Completes report.
Proof.
  intros Hd Hb. unfold create_analytical_report.
  assert (L : len df <> O) by (destruct df; [contradiction|discriminate]).
  destruct (int_div_completes (len blocking_df) (len df) L) as [q1 ->].
  destruct (int_div_completes (len (medium segments)) (len df) L) as [q2 ->].
  destruct (int_div_completes (len (effective segments)) (len df) L)
    as [q3 ->].
  cbn [bind]. unfold select, column.
  destruct blocking_df as [|v frame]; [contradiction|].
  cbn [bind]. eexists. reflexivity.
Qed.

Lemma report_key_error (df : list Row) (averages : Averages)
      (segments : Segments) :
  df <> [] ->
  create_analytical_report df [] averages segments =
  FailsKeyError "Конверсий".
Proof.
  intro Hd. unfold create_analytical_report.
  assert (L : len df <> O) by (destruct df; [contradiction|discriminate]).
  destruct (int_div_completes (len (@nil Verdict)) (len df) L) as [q1 ->].
  destruct (int_div_completes (len (medium segments)) (len df) L)
    as [q2 ->].
  destruct (int_div_completes (len (effective segments)) (len df) L)
    as [q3 ->].
  reflexivity.
Qed.

Lemma segment_platforms_returns (df : list Row) (a : Averages) :
  df <> [] -> exists s, segment_platforms df a = Returns s.
Proof.
  intro Hd. unfold segment_platforms.
  destruct df as [|r df]; [contradiction|].
  cbn [List.length Nat.eqb]. eexists. reflexivity.
Qed.

(** How a call of [create_analytical_report] ends, whatever the averages
    and the segments: with no row in [df] it raises ZeroDivisionError (the
    share of blocked placements divides by [len(df)]); with rows in [df]
    and no verdict in [blocking_df] it raises KeyError for the column
    'Конверсий', which a frame built from no result does not have; else
    it returns a report. *)
Theorem create_analytical_report_ends :
  forall (df : list Row) (blocking_df : list Verdict)
         (averages : Averages) (segments : Segments),
    (df = [] ->
     create_analytical_report df blocking_df averages segments =
     Fails ZeroDivisionError)
    /\ (df <> [] -> blocking_df = [] ->
        create_analytical_report df blocking_df averages segments =
        FailsKeyError "Конверсий")
    /\ (df <> [] -> blocking_df <> [] ->
        exists report,
          create_analytical_report df blocking_df averages segments =
          Completes report).
Proof.
  intros df blocking_df averages segments. split; [|split].
  - intros ->. reflexivity.
  - intros Hd ->. now apply report_key_error.
  - apply report_completes.
Qed.

Lemma create_analytical_report_ends_witness :
  create_analytical_report
    [mkRow "a.ru" 100 1 1 5 5 10 2 0 0] []
    (mkAverages 1 5 10 2 0 5 0)
    (mkSegments [] ["a.ru"] []) = FailsKeyError "Конверсий".
Proof.
  apply (proj1 (proj2 (create_analytical_report_ends
                         [mkRow "a.ru" 100 1 1 5 5 10 2 0 0] []
                         (mkAverages 1 5 10 2 0 5 0)
                         (mkSegments [] ["a.ru"] []))));
    [discriminate|reflexivity].
Defined.

(* ================================================================== *)
(** ** How the run ends *)

(** The three ways steps 2 to 6 of [main] end on a loaded frame.  With no
    row, the run raises ZeroDivisionError in [segment_platforms] and
    writes no file.  With rows none of which is blocked, it raises
    KeyError in [create_analytical_report] and writes no file.  With at
    least one blocked row it completes, and has written the CSV file of
    the verdicts, then the report.  So the report is written exactly when
    the CSV file is, and never for a batch in which nothing is to block. *)
Theorem main_steps_ends :
  forall df : list Row,
    (df = [] -> main_steps df = ([], Fails ZeroDivisionError))
    /\ (forall a, calculate_averages df = Returns a ->
          df <> [] -> apply_blocking_criteria df a = [] ->
          main_steps df = ([], FailsKeyError "Конверсий"))
    /\ (forall a, calculate_averages df = Returns a ->
          df <> [] -> apply_blocking_criteria df a <> [] ->
          exists report,
            main_steps df =
            ([CsvFile (apply_blocking_criteria df a); ReportFile report],
             Completes tt)).
Proof.
  intro df. split; [|split].
  - intros ->. reflexivity.
  - intros a Ha Hd Hb. unfold main_steps. rewrite Ha, Hb.
    destruct (segment_platforms_returns df a Hd) as [s ->].
    rewrite (report_key_error df a s Hd). reflexivity.
  - intros a Ha Hd Hb. unfold main_steps. rewrite Ha.
    destruct (segment_platforms_returns df a Hd) as [s ->].
    destruct (report_completes df (apply_blocking_criteria df a) a s Hd Hb)
      as [report ->].
    exists report.
    destruct (apply_blocking_criteria df a); [contradiction|reflexivity].
Qed.

(** A batch of one row that no criterion blocks. *)
Lemma main_steps_ends_witness :
  main_steps [mkRow "a.ru" 100 1 1 5 5 10 2 0 0] =
  ([], FailsKeyError "Конверсий").
Proof.
  destruct (calculate_averages_returns [mkRow "a.ru" 100 1 1 5 5 10 2 0 0])
    as [a Ha].
  apply (proj1 (proj2 (main_steps_ends [mkRow "a.ru" 100 1 1 5 5 10 2 0 0]))
           a Ha).
  - discriminate.
  - unfold calculate_averages in Ha. injection Ha as <-.
    vm_compute. reflexivity.
Defined.

(* ================================================================== *)
(** ** The money in the report *)






(* ================================================================== *)
(** ** The ten most expensive *)

Lemma insert_desc_perm {A : Type} (key : A -> Q) (x : A) (l : list A) :
  Permutation (insert_desc key x l) (x :: l).
Proof.
  induction l as [|y l IH]; cbn [insert_desc]; [reflexivity|].
  destruct (negb (Qle_bool (key y) (key x))); [|reflexivity].
  rewrite IH. apply perm_swap.
Qed.

Lemma sort_desc_perm {A : Type} (key : A -> Q) (l : list A) :
  Permutation (sort_desc key l) l.
Proof.
  induction l as [|x l IH]; cbn [sort_desc fold_right]; [reflexivity|].
  fold (sort_desc key l). rewrite insert_desc_perm. now constructor.
Qed.

(** [l] is in decreasing order of [key]: every element is at least the
    ones after it. *)
Definition decreasing {A : Type} (key : A -> Q) (l : list A) : Prop :=
  StronglySorted (fun x y => key y <= key x) l.

Lemma insert_desc_decreasing {A : Type} (key : A -> Q) (x : A) (l : list A) :
  decreasing key l -> decreasing key (insert_desc key x l).
Proof.
  unfold decreasing.
  induction l as [|y l IH]; intro S; cbn [insert_desc].
  - repeat constructor.
  - inversion S as [|? ? S' F]; subst.
    destruct (Qle_bool (key y) (key x)) eqn:C; cbn [negb].
    + apply Qle_bool_iff in C. constructor; [exact S|].
      constructor; [exact C|].
      apply Forall_forall. intros z Hz.
      rewrite Forall_forall in F. specialize (F z Hz). lra.
    + apply Qle_bool_false in C. constructor; [apply IH; exact S'|].
      apply Forall_forall. intros z Hz.
      apply (Permutation_in _ (insert_desc_perm key x l)) in Hz.
      destruct Hz as [<-|Hz]; [lra|].
      rewrite Forall_forall in F. exact (F z Hz).
Qed.

Lemma sort_desc_decreasing {A : Type} (key : A -> Q) (l : list A) :
  decreasing key (sort_desc key l).
Proof.
  induction l as [|x l IH]; cbn [sort_desc fold_right].
  - constructor.
  - apply insert_desc_decreasing. exact IH.
Qed.

Lemma in_firstn {A : Type} (n : nat) (l : list A) (x : A) :
  In x (firstn n l) -> In x l.
Proof.
  intro H. rewrite <- (firstn_skipn n l). apply in_or_app. now left.
Qed.

Lemma in_skipn {A : Type} (n : nat) (l : list A) (x : A) :
  In x (skipn n l) -> In x l.
Proof.
  intro H. rewrite <- (firstn_skipn n l). apply in_or_app. now right.
Qed.

Lemma decreasing_split {A : Type} (key : A -> Q) (n : nat) (l : list A) :
  decreasing key l ->
  decreasing key (firstn n l)
  /\ forall x y, In x (firstn n l) -> In y (skipn n l) -> key y <= key x.
Proof.
  unfold decreasing. revert n.
  induction l as [|z l IH]; intros n S.
  - rewrite firstn_nil, skipn_nil. split; [constructor|contradiction].
  - destruct n as [|n]; cbn [firstn skipn].
    + split; [constructor|contradiction].
    + inversion S as [|? ? S' F]; subst.
      destruct (IH n S') as [T D]. rewrite Forall_forall in F.
      split.
      * constructor; [exact T|]. apply Forall_forall.
        intros w Hw. apply F. eapply in_firstn; eauto.
      * intros x y [<-|Hx] Hy.
        -- apply F. eapply in_skipn; eauto.
        -- apply D; assumption.
Qed.

(** The rows [nlargest(n, ...)] keeps, for the ten lines of section 5 and
    the ten mobile applications of section 6: there are [n] of them, or
    all the rows of the frame when it has fewer; they are in decreasing
    order of spend; together with the rows left out they are the rows of
    the frame, each as often as it stands there; and no row left out
    spent more than a row kept. *)
Theorem nlargest_keeps_largest :
  forall (n : nat) (frame : list Verdict),
    List.length (nlargest n v_spend frame) = Nat.min n (List.length frame)
    /\ decreasing v_spend (nlargest n v_spend frame)
    /\ exists rest : list Verdict,
        Permutation (nlargest n v_spend frame ++ rest) frame
        /\ forall kept left_out,
            In kept (nlargest n v_spend frame) -> In left_out rest ->
            v_spend left_out <= v_spend kept.
Proof.
  intros n frame. unfold nlargest.
  destruct (decreasing_split v_spend n (sort_desc v_spend frame)
              (sort_desc_decreasing v_spend frame)) as [T D].
  split.
  - rewrite length_firstn.
    now rewrite (Permutation_length (sort_desc_perm v_spend frame)).
  - split; [exact T|].
    exists (skipn n (sort_desc v_spend frame)). split; [|exact D].
    rewrite firstn_skipn. apply sort_desc_perm.
Qed.

(* ================================================================== *)
(** ** The breakdowns of the report *)

Lemma insert_key_perm (k : string) (l : list string) :
  Permutation (insert_key k l) (k :: l).
Proof.
  induction l as [|x l IH]; cbn [insert_key]; [reflexivity|].
  destruct (String.leb k x); [reflexivity|].
  rewrite IH. apply perm_swap.
Qed.

Lemma sort_keys_perm (l : list string) : Permutation (sort_keys l) l.
Proof.
  induction l as [|x l IH]; cbn [sort_keys fold_right]; [reflexivity|].
  fold (sort_keys l). rewrite insert_key_perm. now constructor.
Qed.

Lemma in_present (k : string) (l : list (option string)) :
  In k (present l) <-> In (Some k) l.
Proof.
  induction l as [|[x|] l IH]; cbn [present In].
  - tauto.
  - rewrite IH. split; intros [E|H]; auto; left; congruence.
  - rewrite IH. split; [auto|intros [E|H]; [discriminate|auto]].
Qed.

Lemma group_keys_nodup (key : Verdict -> option string) (frame : list Verdict) :
  NoDup (group_keys key frame).
Proof.
  unfold group_keys.
  eapply Permutation_NoDup; [symmetry; apply sort_keys_perm|].
  apply NoDup_nodup.
Qed.

Lemma in_group_keys (key : Verdict -> option string) (frame : list Verdict)
      (k : string) :
  In k (group_keys key frame) <-> exists v, In v frame /\ key v = Some k.
Proof.
  unfold group_keys.
  split.
  - intro H. apply (Permutation_in _ (sort_keys_perm _)) in H.
    apply nodup_In, in_present, in_map_iff in H.
    destruct H as (v & E & Hv). eauto.
  - intros (v & Hv & E).
    apply (Permutation_in _ (Permutation_sym (sort_keys_perm _))).
    apply nodup_In, in_present, in_map_iff. eauto.
Qed.

Lemma list_sum_cons (n : nat) (l : list nat) :
  list_sum (n :: l) = (n + list_sum l)%nat.
Proof. reflexivity. Qed.

(** Each row falls in the group of its key, and in no other. *)
Lemma one_group (ks : list string) (k : string) :
  NoDup ks -> In k ks ->
  list_sum (map (fun k' => if String.eqb k k' then 1 else 0)%nat ks) = 1%nat.
Proof.
  induction ks as [|x ks IH]; intros N H; [contradiction|].
  inversion N as [|? ? Nx N']; subst. cbn [map]; rewrite ?list_sum_cons.
  destruct (String.eqb k x) eqn:E.
  - apply String.eqb_eq in E. subst x.
    assert (Z : list_sum (map (fun k' => if String.eqb k k' then 1 else 0)%nat
                              ks) = 0%nat).
    { clear - Nx. induction ks as [|y ks IH]; [reflexivity|].
      cbn [map]; rewrite ?list_sum_cons.
      destruct (String.eqb k y) eqn:E.
      - apply String.eqb_eq in E. subst. exfalso. apply Nx. now left.
      - rewrite IH; [reflexivity|]. intro. apply Nx. now right. }
    rewrite Z. reflexivity.
  - apply String.eqb_neq in E. destruct H as [->|H]; [contradiction|].
    rewrite (IH N' H). reflexivity.
Qed.

Lemma groups_count (key : Verdict -> option string)
      (ks : list string) (frame : list Verdict) :
  NoDup ks ->
  (forall v, In v frame -> exists k, key v = Some k /\ In k ks) ->
  list_sum (map (fun k => List.length (filter (in_group key k) frame)) ks) =
  List.length frame.
Proof.
  intros N C.
  induction frame as [|v frame IH].
  - cbn [filter List.length].
    clear. induction ks as [|k ks IH]; cbn [map]; rewrite ?list_sum_cons; [reflexivity|].
    now rewrite IH.
  - destruct (C v (or_introl eq_refl)) as (k0 & E & Hk).
    assert (G : forall l,
               list_sum (map (fun k => List.length
                                (filter (in_group key k) (v :: frame))) l) =
               (list_sum (map (fun k' => if String.eqb k0 k' then 1 else 0) l)
                + list_sum (map (fun k => List.length
                                   (filter (in_group key k) frame)) l))%nat).
    { induction l as [|k l IHl]; [reflexivity|].
      cbn [map]. rewrite !list_sum_cons, IHl.
      cbn [filter]. unfold in_group at 1. rewrite E.
      destruct (String.eqb k0 k); cbn [List.length]; lia. }
    rewrite G, (one_group ks k0 N Hk), IH by (intros; apply C; now right).
    reflexivity.
Qed.

(** The breakdown of a frame by a column none of whose values is missing
    counts every row once: the keys of the groups are distinct, no group
    is empty, every row has its key among them, and the counts of the
    groups add up to the number of rows.  This is the case of both
    breakdowns of the report: the type of a verdict is a string, and a
    verdict returned by [apply_blocking_criteria] always carries a
    criterion number. *)
Theorem groups_count_every_row :
  (forall (key : Verdict -> option string) (frame : list Verdict),
      (forall v, In v frame -> key v <> None) ->
      NoDup (map g_key (groups key frame))
      /\ Forall (fun g => (0 < g_count g)%nat) (groups key frame)
      /\ (forall v, In v frame ->
                    exists g, In g (groups key frame)
                              /\ key v = Some (g_key g))
      /\ list_sum (map g_count (groups key frame)) = List.length frame)
  /\ (forall (df : list Row) (a : Averages) (v : Verdict),
         In v (apply_blocking_criteria df a) -> v_number v <> None).
Proof.
  split.
  - intros key frame K.
    assert (C : forall v, In v frame ->
                 exists k, key v = Some k /\ In k (group_keys key frame)).
    { intros v Hv. destruct (key v) as [k|] eqn:E;
        [|exfalso; exact (K v Hv E)].
      exists k. split; [reflexivity|]. apply in_group_keys. eauto. }
    pose proof (group_keys_nodup key frame) as N.
    unfold groups. rewrite !map_map. cbn [g_key g_count].
    split; [now rewrite map_id|].
    split.
    { apply Forall_forall. intros g Hg. apply in_map_iff in Hg.
      destruct Hg as (k & <- & Hk). cbn [g_count].
      apply in_group_keys in Hk. destruct Hk as (v & Hv & E).
      assert (F : In v (filter (in_group key k) frame)).
      { apply filter_In. split; [exact Hv|].
        unfold in_group. rewrite E. apply String.eqb_refl. }
      destruct (filter (in_group key k) frame); [contradiction|].
      cbn [List.length]. lia. }
    split; [|apply groups_count; assumption].
    intros v Hv. destruct (C v Hv) as (k & E & Hk).
    eexists. split; [apply in_map; exact Hk|]. exact E.
  - intros df a v Hv. apply in_apply_blocking_criteria in Hv.
    destruct Hv as (r & _ & Hv).
    destruct (row_verdicts_entry r a) as [E|(e & He & E)];
      rewrite E in Hv; [contradiction|].
    destruct Hv as [<-|[]].
    unfold assignments in He. cbn [In] in He.
    repeat (destruct He as [<-|He]); try contradiction; discriminate.
Qed.

Lemma groups_count_every_row_witness :
  list_sum (map g_count
              (groups v_number
                 (apply_blocking_criteria [costly_row] no_cpa_baseline))) =
  List.length (apply_blocking_criteria [costly_row] no_cpa_baseline).
Proof.
  apply (proj1 groups_count_every_row v_number
           (apply_blocking_criteria [costly_row] no_cpa_baseline)).
  intros v Hv.
  exact (proj2 groups_count_every_row [costly_row] no_cpa_baseline v Hv).
Defined.

(* ================================================================== *)
(** ** A line the report never holds *)

Lemma report_needs_verdicts (df : list Row) (blocking_df : list Verdict)
      (averages : Averages) (segments : Segments) (report : list line) :
  create_analytical_report df blocking_df averages segments =
  Completes report ->
  df <> [] /\ blocking_df <> [].
Proof.
  intro H. split; intro E; subst.
  - discriminate H.
  - destruct df as [|r df]; [discriminate H|].
    rewrite report_key_error in H by discriminate. discriminate H.
Qed.

Definition text_of (l : line) : string :=
  match l with
  | Line text _ => text
  end.

(** The line is not the one that says that nothing was found. *)
Definition says_found (l : line) : bool :=
  negb (String.eqb (text_of l) "Площадок к блокировке не найдено.").

Lemma forallb_map_all {A : Type} (f : A -> line) (l : list A) :
  (forall x, says_found (f x) = true) ->
  forallb says_found (map f l) = true.
Proof.
  intro H. induction l as [|x l IH]; [reflexivity|].
  cbn [map forallb]. now rewrite H, IH.
Qed.

Lemma says_found_if (b : bool) (x y : line) :
  says_found x = true -> says_found y = true ->
  says_found (if b then x else y) = true.
Proof. now destruct b. Qed.

Lemma forallb_if (b : bool) (x y : list line) :
  forallb says_found x = true -> forallb says_found y = true ->
  forallb says_found (if b then x else y) = true.
Proof. now destruct b. Qed.

Lemma forallb_app_all (x y : list line) :
  forallb says_found x = true -> forallb says_found y = true ->
  forallb says_found (x ++ y) = true.
Proof. intros Hx Hy. now rewrite forallb_app, Hx, Hy. Qed.

Lemma forallb_cons_all (x : line) (y : list line) :
  says_found x = true -> forallb says_found y = true ->
  forallb says_found (x :: y) = true.
Proof. intros Hx Hy. cbn [forallb]. now rewrite Hx, Hy. Qed.

(** Checks the lines of a list built with [++], [::], [map] and [if]. *)
Ltac all_found :=
  repeat first
    [ apply forallb_app_all
    | apply forallb_cons_all
    | apply forallb_if
    | apply says_found_if
    | apply forallb_map_all; intro
    | reflexivity ].

Lemma recommendations_found (blocking_df : list Verdict) :
  forallb says_found (recommendations blocking_df) = true.
Proof. unfold recommendations. all_found. Qed.

(** A report that is returned was made from at least one verdict, so the
    branch that writes "Площадок к блокировке не найдено." (no placement
    to block was found) is never taken: no returned report holds that
    line. *)
Theorem report_never_says_none_found :
  forall (df : list Row) (blocking_df : list Verdict)
         (averages : Averages) (segments : Segments) (report : list line),
    create_analytical_report df blocking_df averages segments =
    Completes report ->
    blocking_df <> []
    /\ ~ In (Line "Площадок к блокировке не найдено." []) report.
Proof.
  intros df blocking_df averages segments report H.
  destruct (report_needs_verdicts _ _ _ _ _ H) as [Hd Hb].
  split; [exact Hb|].
  assert (F : forallb says_found report = true).
  { unfold create_analytical_report in H.
    assert (L : len df <> O) by (destruct df; [contradiction|discriminate]).
    destruct (int_div_completes (len blocking_df) (len df) L) as [q1 E1].
    destruct (int_div_completes (len (medium segments)) (len df) L)
      as [q2 E2].
    destruct (int_div_completes (len (effective segments)) (len df) L)
      as [q3 E3].
    rewrite E1, E2, E3 in H. cbn [bind] in H.
    destruct blocking_df as [|v frame]; [contradiction|].
    unfold select, column in H. cbn [bind] in H.
    change (0 <? len (v :: frame))%nat with true in H. cbv iota in H.
    injection H as <-.
    pose proof (recommendations_found (v :: frame)) as R.
    all_found; exact R. }
  intro I. rewrite forallb_forall in F. specialize (F _ I).
  discriminate F.
Qed.

Lemma report_never_says_none_found_witness :
  apply_blocking_criteria [costly_row] no_cpa_baseline <> [].
Proof.
  destruct (report_completes [costly_row]
              (apply_blocking_criteria [costly_row] no_cpa_baseline)
              no_cpa_baseline (mkSegments [] ["example.ru"] []))
    as [report R]; [discriminate|vm_compute; discriminate|].
  exact (proj1 (report_never_says_none_found _ _ _ _ _ R)).
Defined.
